(** * Stock technical-analysis orchestrator: a shallow embedding of
      [stock_analyzer.py] and the properties of its pipeline.

    The Python class [StockAnalyzer] talks to four outside parties: the
    tool session (an MCP server), the generative backend (chat
    completions), the market-data source (price history) and the file
    system.  The embedding keeps the code of every method and replaces
    the outside parties by a [World]: one function per operation, from
    the history of the interactions so far and the request to the reply.
    A method is a computation in the monad [M], which returns a value or
    raises a Python exception and emits the interactions it performed.

    Conventions.
    - A Python [str] is a [string]; its characters are code points
      below 256.
    - A Python [dict] is an association list in insertion order with
      unique keys ([dict_set] keeps the position of a key that is already
      present, as Python does).
    - An exception carries the text of [str(e)] and whether its class
      derives from [Exception]; [except Exception] and a bare [except]
      differ on the others ([SystemExit], [KeyboardInterrupt]).
    - [logger] calls are not modelled.
    - [connect_to_mcp_server] and [disconnect_from_mcp_server] change the
      attributes of the analyzer; they are embedded apart, in the module
      [Connection], over a [Transport] and a monad that carries the
      analyzer. *)

From Stdlib Require Import List String Ascii Bool Arith Lia ZArith DecimalString.
Import ListNotations.
Open Scope string_scope.

(** ** Python values *)

Module Py.

(** Exceptions: [str(e)] and the side of the class hierarchy. *)
Record exn : Type := mk_exn { is_Exception : bool; exn_str : string }.

Inductive outcome (A : Type) : Type :=
| Ok (a : A)
| Raise (e : exn).
Arguments Ok {A} a.
Arguments Raise {A} e.

Definition IndexError : exn := mk_exn true "list index out of range".
Definition AttributeError : exn := mk_exn true "object has no attribute 'text'".
Definition SyntaxError : exn := mk_exn true "invalid syntax".
Definition PermissionError (what : string) : exn :=
  mk_exn true ("[Errno 13] Permission denied: '" ++ what ++ "'").
Definition ConnectionError : exn := mk_exn true "Connection error.".
Definition SystemExit : exn := mk_exn false "None".

(** Truth value of a [str] and of an [Optional[str]]. *)
Definition str_truthy (s : string) : bool :=
  match s with EmptyString => false | String _ _ => true end.

Definition opt_truthy (o : option string) : bool :=
  match o with Some s => str_truthy s | None => false end.

Definition list_truthy {A : Type} (l : list A) : bool :=
  match l with [] => false | _ :: _ => true end.

(** [x or default] on an [Optional[str]]. *)
Definition str_or (o : option string) (default : string) : string :=
  match o with
  | Some s => if str_truthy s then s else default
  | None => default
  end.

(** Whitespace as [str.strip()] sees it, on code points below 256:
    TAB..CR, FS..US, space, NEL and NBSP. *)
Definition is_space (c : ascii) : bool :=
  let n := nat_of_ascii c in
  (((9 <=? n) && (n <=? 13)) || ((28 <=? n) && (n <=? 32))
   || (n =? 133) || (n =? 160))%nat.

Fixpoint lstrip (s : string) : string :=
  match s with
  | EmptyString => EmptyString
  | String c rest => if is_space c then lstrip rest else s
  end.

Fixpoint rstrip (s : string) : string :=
  match s with
  | EmptyString => EmptyString
  | String c rest =>
      match rstrip rest with
      | EmptyString => if is_space c then EmptyString else String c EmptyString
      | r => String c r
      end
  end.

Definition strip (s : string) : string := rstrip (lstrip s).

Fixpoint all_space (s : string) : bool :=
  match s with
  | EmptyString => true
  | String c rest => is_space c && all_space rest
  end.

(** [str(n)] for a non-negative [int]. *)
Definition str_of_nat (n : nat) : string := NilEmpty.string_of_uint (Nat.to_uint n).

Definition nl : string := String (ascii_of_nat 10) EmptyString.
Definition dq : string := String (ascii_of_nat 34) EmptyString.

(** [sep.join(parts)]. *)
Definition join (sep : string) (parts : list string) : string := String.concat sep parts.

(** Insertion-ordered dictionaries with [str] keys. *)
Definition dict (V : Type) : Type := list (string * V).

Fixpoint dict_get {V : Type} (k : string) (d : dict V) : option V :=
  match d with
  | [] => None
  | (k', v) :: rest => if String.eqb k k' then Some v else dict_get k rest
  end.

Definition dict_mem {V : Type} (k : string) (d : dict V) : bool :=
  match dict_get k d with Some _ => true | None => false end.

(** [d[k] = v] *)
Fixpoint dict_set {V : Type} (k : string) (v : V) (d : dict V) : dict V :=
  match d with
  | [] => [(k, v)]
  | (k', v') :: rest =>
      if String.eqb k k' then (k, v) :: rest else (k', v') :: dict_set k v rest
  end.

(** [d.update(other)] *)
Definition dict_update {V : Type} (d other : dict V) : dict V :=
  fold_left (fun acc kv => dict_set (fst kv) (snd kv) acc) other d.

(** [d.get(k, default)] *)
Definition dict_get_default {V : Type} (k : string) (default : V) (d : dict V) : V :=
  match dict_get k d with Some v => v | None => default end.

Definition dict_keys {V : Type} (d : dict V) : list string := map fst d.

(** [x in l] on a list of [str]. *)
Definition str_in (x : string) (l : list string) : bool := existsb (String.eqb x) l.

(** A [float] literal of the source, kept as written: [mantissa * 10^exp10]. *)
Record float_literal : Type := mk_float { mantissa : Z; exp10 : Z }.

(** The values that occur in a parameter bag. *)
#[warnings="-register-all"]
Inductive pyval : Type :=
| VStr (s : string)
| VInt (z : Z)
| VFloat (f : float_literal)
| VList (l : list pyval)
| VDict (d : list (string * pyval)).

End Py.
Import Py.

(** ** The outside world and the monad of the methods *)

(** A tool of the MCP catalog: [tool.name], [tool.description]. *)
Record ToolDescriptor : Type := mk_tool { name : string; description : option string }.

(** One entry of the function-calling schema (the nested dict built by
    [create_openai_tools_schema]). *)
Record PropertySchema : Type :=
  mk_property { prop_type : string; prop_description : string }.

Record ParametersSchema : Type :=
  mk_parameters { params_type : string;
                  properties : dict PropertySchema;
                  required : list string }.

Record FunctionSchema : Type :=
  mk_function { fn_name : string;
                fn_description : string;
                fn_parameters : ParametersSchema }.

Record OpenAITool : Type := mk_openai_tool { tool_type : string; tool_function : FunctionSchema }.

(** [tool_call.function.name], [tool_call.function.arguments] *)
Record ToolCall : Type := mk_tool_call { tc_name : string; tc_arguments : string }.

(** [response.choices[i].message] *)
Record Message : Type :=
  mk_message { content : option string; tool_calls : option (list ToolCall) }.

Record ChatResponse : Type := mk_response { choices : list Message }.

Record ChatRequest : Type :=
  mk_request { req_model : string;
               req_messages : list (string * string);
               req_tools : option (list OpenAITool);
               req_tool_choice : option string;
               req_max_tokens : option nat;
               req_temperature : option float_literal }.

(** A content block of a tool result; only text blocks have [.text]. *)
Inductive ContentBlock : Type :=
| TextContent (text : string)
| OtherContent.

(** The rows of a price history, each given by its closing price as the
    format [.2f] prints it (the only use the code makes of a row). *)
Definition History : Type := list string.

(** One interaction with the outside: the request and the reply. *)
Inductive event : Type :=
| EvListTools (reply : outcome (option (list ToolDescriptor)))
| EvChat (req : ChatRequest) (reply : outcome ChatResponse)
| EvEval (source : string) (reply : outcome unit)
| EvCallTool (tool_name : string) (parameters : dict pyval) (reply : outcome (list ContentBlock))
| EvHistory (symbol period : string) (reply : outcome History)
| EvMkdir (dir : string) (reply : outcome unit)
| EvWrite (path text : string) (reply : outcome unit).

Definition history : Type := list event.

(** The behaviour of everything the class does not define itself. *)
Record World : Type :=
  mk_world {
    (** [self.session.list_tools()]; [None] is a falsy response *)
    w_list_tools : history -> outcome (option (list ToolDescriptor));
    (** [self.openai_client.chat.completions.create(...)] *)
    w_chat : history -> ChatRequest -> outcome ChatResponse;
    (** the builtin [eval] on a payload; the value is never used *)
    w_eval : history -> string -> outcome unit;
    (** [self.session.call_tool(name, parameters)], giving [result.content] *)
    w_call_tool : history -> string -> dict pyval -> outcome (list ContentBlock);
    (** [yf.Ticker(symbol).history(period=...)] *)
    w_history : history -> string -> string -> outcome History;
    (** [Path(dir).mkdir(exist_ok=True)] *)
    w_mkdir : history -> string -> outcome unit;
    (** [open(path, 'w', encoding='utf-8')] followed by [f.write(text)] *)
    w_write : history -> string -> string -> outcome unit;
    (** [os.getenv("OPENAI_MODEL")] *)
    w_env_model : option string;
    (** [datetime.now().isoformat()] and [.strftime("%Y%m%d_%H%M%S")] *)
    w_now_isoformat : history -> string;
    w_now_strftime : history -> string;
    (** [str.upper] and [str.title] of the interpreter *)
    str_upper : string -> string;
    str_title : string -> string
  }.

(** A computation reads the history so far and gives a value or an
    exception, with the interactions it added. *)
Definition M (A : Type) : Type := history -> outcome A * list event.

Definition ret {A : Type} (a : A) : M A := fun _ => (Ok a, []).

Definition raise {A : Type} (e : exn) : M A := fun _ => (Raise e, []).

Definition bind {A B : Type} (m : M A) (k : A -> M B) : M B :=
  fun h =>
    match m h with
    | (Ok a, evs) => let (r, evs') := k a (h ++ evs)%list in (r, (evs ++ evs')%list)
    | (Raise e, evs) => (Raise e, evs)
    end.

Declare Scope py_scope.
Delimit Scope py_scope with py.
Notation "x <- m ;; k" := (bind m (fun x => k))
  (at level 100, m at next level, right associativity) : py_scope.
Notation "m ;;; k" := (bind m (fun _ => k))
  (at level 100, right associativity) : py_scope.
Open Scope py_scope.

(** [try: body  except Exception as e: handler e] *)
Definition try_except_Exception {A : Type} (body : M A) (handler : exn -> M A) : M A :=
  fun h =>
    match body h with
    | (Ok a, evs) => (Ok a, evs)
    | (Raise e, evs) =>
        if is_Exception e
        then let (r, evs') := handler e (h ++ evs)%list in (r, (evs ++ evs')%list)
        else (Raise e, evs)
    end.

(** [try: body  except: handler] *)
Definition try_except_all {A : Type} (body : M A) (handler : M A) : M A :=
  fun h =>
    match body h with
    | (Ok a, evs) => (Ok a, evs)
    | (Raise _, evs) => let (r, evs') := handler (h ++ evs)%list in (r, (evs ++ evs')%list)
    end.

(** The interactions. *)
Definition session_list_tools (W : World) : M (option (list ToolDescriptor)) :=
  fun h => let r := w_list_tools W h in (r, [EvListTools r]).

Definition chat_completions_create (W : World) (req : ChatRequest) : M ChatResponse :=
  fun h => let r := w_chat W h req in (r, [EvChat req r]).

Definition py_eval (W : World) (source : string) : M unit :=
  fun h => let r := w_eval W h source in (r, [EvEval source r]).

Definition session_call_tool (W : World) (tool_name : string) (parameters : dict pyval)
  : M (list ContentBlock) :=
  fun h => let r := w_call_tool W h tool_name parameters in (r, [EvCallTool tool_name parameters r]).

Definition ticker_history (W : World) (symbol period : string) : M History :=
  fun h => let r := w_history W h symbol period in (r, [EvHistory symbol period r]).

Definition path_mkdir (W : World) (dir : string) : M unit :=
  fun h => let r := w_mkdir W h dir in (r, [EvMkdir dir r]).

Definition write_file (W : World) (path text : string) : M unit :=
  fun h => let r := w_write W h path text in (r, [EvWrite path text r]).

Definition now_isoformat (W : World) : M string := fun h => (Ok (w_now_isoformat W h), []).

Definition now_strftime (W : World) : M string := fun h => (Ok (w_now_strftime W h), []).

(** ** The methods of [StockAnalyzer] *)

Module StockAnalyzer.

(** *** [get_available_tools] *)
Definition get_available_tools (W : World) : M (list ToolDescriptor) :=
  try_except_Exception
    (response <- session_list_tools W ;;
     ret (match response with Some tools => tools | None => [] end))
    (fun _ => ret []).

(** *** [create_openai_tools_schema] *)
Definition target_tools : list string :=
  [ "analyze_bollinger_zscore_performance";
    "analyze_bollinger_fibonacci_performance";
    "analyze_macd_donchian_performance";
    "analyze_connors_zscore_performance";
    "analyze_dual_ma_strategy" ].

(** The dict literal of one entry, with empty [properties] and [required]. *)
Definition openai_tool_literal (tool : ToolDescriptor) : OpenAITool :=
  mk_openai_tool "function"
    (mk_function (name tool)
       (str_or (description tool) ("Execute " ++ name tool ++ " analysis"))
       (mk_parameters "object" [] [])).

(** [if "symbol" not in properties: properties["symbol"] = ...; required.append("symbol")] *)
Definition add_symbol_parameter (openai_tool : OpenAITool) : OpenAITool :=
  let f := tool_function openai_tool in
  let p := fn_parameters f in
  if negb (dict_mem "symbol" (properties p))
  then mk_openai_tool (tool_type openai_tool)
         (mk_function (fn_name f) (fn_description f)
            (mk_parameters (params_type p)
               (dict_set "symbol" (mk_property "string" "Stock ticker symbol") (properties p))
               (required p ++ ["symbol"])%list))
  else openai_tool.

(** The [for tool in mcp_tools] loop, [openai_tools] being the list built so far. *)
Fixpoint schema_loop (mcp_tools : list ToolDescriptor) (openai_tools : list OpenAITool)
  : list OpenAITool :=
  match mcp_tools with
  | [] => openai_tools
  | tool :: rest =>
      if str_in (name tool) target_tools
      then schema_loop rest (openai_tools ++ [add_symbol_parameter (openai_tool_literal tool)])%list
      else schema_loop rest openai_tools
  end.

Definition create_openai_tools_schema (mcp_tools : list ToolDescriptor) : list OpenAITool :=
  schema_loop mcp_tools [].

(** *** [validate_symbol] *)
Definition validate_symbol (W : World) (symbol : string) : M bool :=
  if negb (str_truthy symbol) || negb (str_truthy (strip symbol))
  then ret false
  else
    try_except_Exception
      (hist <- ticker_history W (str_upper W (strip symbol)) "5d" ;;
       if negb (list_truthy hist)   (* hist.empty *)
       then ret false
       else ret true)
      (fun _ => ret false).

(** *** [execute_mcp_tool] *)
Definition block_text (b : ContentBlock) : M string :=
  match b with
  | TextContent text => ret text
  | OtherContent => raise AttributeError
  end.

Definition execute_mcp_tool (W : World) (tool_name : string) (parameters : dict pyval)
  : M (option string) :=
  try_except_Exception
    (result_content <- session_call_tool W tool_name parameters ;;
     match result_content with
     | b :: _ => text <- block_text b ;; ret (Some text)
     | [] => ret None
     end)
    (fun _ => ret None).

(** *** [analyze_with_openai] *)

(** What the run returns: [{"error": ...}] or the bundle dict. *)
Record Bundle : Type :=
  mk_bundle { symbol : string;
              analyses : dict string;
              timestamp : string;
              total_strategies : nat;
              openai_summary : string }.

Inductive AnalysisOutput : Type :=
| ErrorResult (error : string)
| AnalysisBundle (b : Bundle).

Definition analysis_prompt (symbol : string) : string :=
  join nl
    [ EmptyString;
      "You are a professional financial analyst. I need you to perform a comprehensive technical analysis of the stock symbol '" ++ symbol ++ "' using multiple trading strategies.";
      EmptyString;
      "Please use ALL of the following analysis tools to analyze " ++ symbol ++ ":";
      EmptyString;
      "1. analyze_bollinger_zscore_performance - for Bollinger Z-Score analysis (period: " ++ dq ++ "1y" ++ dq ++ ", window: 20)";
      "2. analyze_bollinger_fibonacci_performance - for Bollinger-Fibonacci analysis (period: " ++ dq ++ "1y" ++ dq ++ ", window: 20, num_std: 2, fibonacci_levels: [0, 0.236, 0.382, 0.5, 0.618, 0.786, 1])";
      "3. analyze_macd_donchian_performance - for MACD-Donchian analysis (period: " ++ dq ++ "1y" ++ dq ++ ", macd_params: {" ++ dq ++ "fast_period" ++ dq ++ ": 12, " ++ dq ++ "slow_period" ++ dq ++ ": 26, " ++ dq ++ "signal_period" ++ dq ++ ": 9}, donchian_window: 20)";
      "4. analyze_connors_zscore_performance - for Connors RSI + Z-Score analysis (period: " ++ dq ++ "1y" ++ dq ++ ", connors_params: {" ++ dq ++ "rsi_period" ++ dq ++ ": 3, " ++ dq ++ "streak_period" ++ dq ++ ": 2, " ++ dq ++ "rank_period" ++ dq ++ ": 100}, zscore_window: 20)";
      "5. analyze_dual_ma_strategy - for Dual Moving Average analysis (period: " ++ dq ++ "1y" ++ dq ++ ", short_period: 50, long_period: 200, ma_type: " ++ dq ++ "EMA" ++ dq ++ ")";
      EmptyString;
      "Execute each tool with the specified parameters for symbol '" ++ symbol ++ "'. After running all tools, provide a summary of what each analysis revealed.";
      EmptyString ].

(** The [if / elif] chain: what [tool_params.update] receives for a tool
    name; no branch is taken for any other name. *)
Definition canonical_update (tool_name : string) : dict pyval :=
  if tool_name =? "analyze_bollinger_zscore_performance" then
    [("period", VStr "1y"); ("window", VInt 20)]
  else if tool_name =? "analyze_bollinger_fibonacci_performance" then
    [("period", VStr "1y"); ("window", VInt 20); ("num_std", VInt 2);
     ("fibonacci_levels",
      VList [VInt 0; VFloat (mk_float 236 (-3)); VFloat (mk_float 382 (-3));
             VFloat (mk_float 5 (-1)); VFloat (mk_float 618 (-3));
             VFloat (mk_float 786 (-3)); VInt 1])]
  else if tool_name =? "analyze_macd_donchian_performance" then
    [("period", VStr "1y");
     ("macd_params",
      VDict [("fast_period", VInt 12); ("slow_period", VInt 26); ("signal_period", VInt 9)]);
     ("donchian_window", VInt 20)]
  else if tool_name =? "analyze_connors_zscore_performance" then
    [("period", VStr "1y");
     ("connors_params",
      VDict [("rsi_period", VInt 3); ("streak_period", VInt 2); ("rank_period", VInt 100)]);
     ("zscore_window", VInt 20)]
  else if tool_name =? "analyze_dual_ma_strategy" then
    [("period", VStr "1y"); ("short_period", VInt 50); ("long_period", VInt 200);
     ("ma_type", VStr "EMA")]
  else [].

(** [tool_params = {"symbol": symbol}] followed by the chain. *)
Definition tool_params (symbol tool_name : string) : dict pyval :=
  dict_update [("symbol", VStr symbol)] (canonical_update tool_name).

Definition key_mapping : dict string :=
  [ ("analyze_bollinger_zscore_performance", "bollinger_zscore");
    ("analyze_bollinger_fibonacci_performance", "bollinger_fibonacci");
    ("analyze_macd_donchian_performance", "macd_donchian");
    ("analyze_connors_zscore_performance", "connors_zscore");
    ("analyze_dual_ma_strategy", "dual_ma") ].

(** [key_mapping.get(tool_name, tool_name)] *)
Definition analysis_key (tool_name : string) : string :=
  dict_get_default tool_name tool_name key_mapping.

(** [tool_args = eval(arguments) if arguments else {}]; [tool_args] is not
    used afterwards. *)
Definition eval_arguments (W : World) (arguments : string) : M unit :=
  if str_truthy arguments then py_eval W arguments else ret tt.

(** [if result: analysis_results[analysis_key] = result] *)
Definition store_result (tool_name : string) (result : option string)
  (analysis_results : dict string) : dict string :=
  match result with
  | Some text =>
      if str_truthy text
      then dict_set (analysis_key tool_name) text analysis_results
      else analysis_results
  | None => analysis_results
  end.

(** The body of [for tool_call in message.tool_calls]. *)
Definition process_tool_call (W : World) (symbol : string) (tool_call : ToolCall)
  (analysis_results : dict string) : M (dict string) :=
  let tool_name := tc_name tool_call in
  eval_arguments W (tc_arguments tool_call) ;;;
  result <- execute_mcp_tool W tool_name (tool_params symbol tool_name) ;;
  ret (store_result tool_name result analysis_results).

Fixpoint process_tool_calls (W : World) (symbol : string) (calls : list ToolCall)
  (analysis_results : dict string) : M (dict string) :=
  match calls with
  | [] => ret analysis_results
  | tool_call :: rest =>
      analysis_results' <- process_tool_call W symbol tool_call analysis_results ;;
      process_tool_calls W symbol rest analysis_results'
  end.

(** [os.getenv("OPENAI_MODEL", "gpt-4")] *)
Definition openai_model (W : World) : string :=
  match w_env_model W with Some m => m | None => "gpt-4" end.

Definition analysis_request (W : World) (symbol : string) (openai_tools : list OpenAITool)
  : ChatRequest :=
  mk_request (openai_model W)
    [ ("system", "You are a financial analysis assistant. Use the provided tools to analyze stocks thoroughly.");
      ("user", analysis_prompt symbol) ]
    (Some openai_tools) (Some "auto") None None.

(** [response.choices[0].message] *)
Definition first_message (response : ChatResponse) : M Message :=
  match choices response with
  | m :: _ => ret m
  | [] => raise IndexError
  end.

(** [message.tool_calls] when it is truthy. *)
Definition proposed_calls (message : Message) : list ToolCall :=
  match tool_calls message with Some calls => calls | None => [] end.

(** The statements after the loop: the emptiness test and the bundle. *)
Definition assemble (W : World) (symbol : string) (message : Message)
  (analysis_results : dict string) : M AnalysisOutput :=
  if negb (list_truthy analysis_results)
  then ret (ErrorResult "No analysis results obtained from OpenAI tool calls")
  else
    now <- now_isoformat W ;;
    ret (AnalysisBundle
           (mk_bundle symbol analysis_results now (List.length analysis_results)
              (str_or (content message) "Analysis completed via tool calls"))).

(** The body of the [try]. *)
Definition analyze_with_openai_body (W : World) (symbol : string) : M AnalysisOutput :=
  mcp_tools <- get_available_tools W ;;
  let openai_tools := create_openai_tools_schema mcp_tools in
  if negb (list_truthy openai_tools)
  then ret (ErrorResult "No analysis tools available")
  else
    response <- chat_completions_create W (analysis_request W symbol openai_tools) ;;
    message <- first_message response ;;
    analysis_results <-
      (if list_truthy (proposed_calls message)
       then process_tool_calls W symbol (proposed_calls message) []
       else ret []) ;;
    assemble W symbol message analysis_results.

Definition analyze_with_openai (W : World) (symbol : string) : M AnalysisOutput :=
  try_except_Exception
    (analyze_with_openai_body W symbol)
    (fun e => ret (ErrorResult ("OpenAI analysis failed: " ++ exn_str e))).

(** *** [analyze_stock] *)
Definition analyze_stock (W : World) (symbol : string) : M AnalysisOutput :=
  let symbol := strip (str_upper W symbol) in
  valid <- validate_symbol W symbol ;;
  if negb valid
  then ret (ErrorResult ("Invalid or non-existent symbol: " ++ symbol))
  else analyze_with_openai W symbol.

(** *** [generate_final_report_with_ai] *)
Definition strategy_names : dict string :=
  [ ("bollinger_zscore", "Bollinger Z-Score Performance Analysis");
    ("bollinger_fibonacci", "Bollinger-Fibonacci Performance Analysis");
    ("macd_donchian", "MACD-Donchian Performance Analysis");
    ("connors_zscore", "Connors RSI + Z-Score Performance Analysis");
    ("dual_ma", "Dual Moving Average Strategy Analysis") ].

(** One element of [individual_analyses]. *)
Definition individual_analysis (W : World) (item : string * string) : string :=
  let strategy_name := dict_get_default (fst item) (str_title W (fst item)) strategy_names in
  "### " ++ strategy_name ++ nl ++ nl ++ snd item.

(** [ticker.history(period="1d")['Close'].iloc[-1]], printed with [.2f]. *)
Definition last_close (hist : History) : M string :=
  match rev hist with
  | price :: _ => ret price
  | [] => raise IndexError
  end.

(** The inner [try ... except:] that fills [price_info]. *)
Definition current_price_info (W : World) (symbol : string) : M string :=
  try_except_all
    (hist <- ticker_history W symbol "1d" ;;
     current_price <- last_close hist ;;
     ret ("$" ++ current_price))
    (ret "N/A").

Definition final_analysis_prompt (symbol price_info : string) (total_strategies : nat) (individual_analyses : list string) : string :=
  join nl
    [ "You are a senior financial analyst tasked with creating a comprehensive technical analysis report for " ++ symbol ++ ". ";
      EmptyString;
      "I have conducted 5 different technical analysis strategies on " ++ symbol ++ " and need you to:";
      EmptyString;
      "1. **Analyze all the individual strategy results** and extract key metrics";
      "2. **Create a performance summary table** with actual numbers from the analyses";
      "3. **Provide a comprehensive final recommendation** based on the collective insights";
      "4. **Generate the complete report in markdown format**";
      EmptyString;
      "## Context:";
      "- **Symbol:** " ++ symbol;
      "- **Current Price:** " ++ price_info;
      "- **Analysis Period:** 1 Year";
      "- **Number of Strategies:** " ++ str_of_nat total_strategies;
      EmptyString;
      "## Individual Strategy Analysis Results:";
      EmptyString;
      join nl individual_analyses;
      EmptyString;
      "## Instructions for Your Report:";
      EmptyString;
      "Please create a complete markdown report with the following structure:";
      EmptyString;
      "1. **Header Section** with symbol, price, date, etc.";
      "2. **Executive Summary** explaining what was analyzed";
      "3. **Performance Summary Table** - Extract the actual metrics from each strategy:";
      "   - Strategy Name";
      "   - Total Return (%)";
      "   - Sharpe Ratio";
      "   - Max Drawdown (%)";
      "   - Win Rate (%)";
      "   - Current Signal (BUY/SELL/HOLD)";
      EmptyString;
      "4. **Strategy Consensus Analysis** - Analyze the signals:";
      "   - How many strategies recommend BUY vs SELL vs HOLD";
      "   - Which strategies are performing best/worst";
      "   - Any conflicting signals and why";
      EmptyString;
      "5. **Risk Assessment** - Based on the metrics:";
      "   - Overall volatility assessment";
      "   - Drawdown analysis";
      "   - Risk-adjusted return evaluation";
      EmptyString;
      "6. **Final Investment Recommendation** - Your professional opinion:";
      "   - Overall market signal (BULLISH/BEARISH/NEUTRAL)";
      "   - Confidence level";
      "   - Specific action recommendations";
      "   - Position sizing guidance";
      "   - Risk management suggestions";
      "   - Key levels to monitor";
      EmptyString;
      "7. **Strategic Insights** - Higher-level analysis:";
      "   - Market environment assessment";
      "   - Which strategy types work best for this stock";
      "   - Economic or sector considerations";
      "   - Time horizon recommendations";
      EmptyString;
      "Please make the report professional, actionable, and insightful. Extract all numerical data accurately from the individual analyses. Provide clear reasoning for your recommendations.";
      EmptyString;
      "Focus on creating value through synthesis and interpretation rather than just summarizing the individual results.";
      EmptyString ].

Definition report_request (W : World) (prompt : string) : ChatRequest :=
  mk_request (openai_model W)
    [ ("system", "You are a senior financial analyst specializing in technical analysis. Create comprehensive, professional investment reports based on multiple strategy analyses.");
      ("user", prompt) ]
    None None (Some 4000) (Some (mk_float 3 (-1))).

(** The string of the [except] branch. *)
Definition fallback_report (symbol : string) (e : exn) : string :=
  "# Technical Analysis Report: " ++ symbol ++ nl ++ nl
  ++ "Error generating comprehensive report: " ++ exn_str e.

(** The result is [message.content], which the backend may leave [None]. *)
Definition generate_final_report_with_ai (W : World) (symbol : string) (analysis_data : Bundle)
  : M (option string) :=
  try_except_Exception
    (let individual_analyses := map (individual_analysis W) (analyses analysis_data) in
     price_info <- current_price_info W symbol ;;
     let prompt :=
       final_analysis_prompt symbol price_info (total_strategies analysis_data)
         individual_analyses in
     response <- chat_completions_create W (report_request W prompt) ;;
     message <- first_message response ;;
     ret (content message))
    (fun e => ret (Some (fallback_report symbol e))).

(** *** [generate_markdown_report] *)
Definition generate_markdown_report (W : World) (analysis_data : Bundle) : M (option string) :=
  generate_final_report_with_ai W (symbol analysis_data) analysis_data.

(** *** [save_report] *)
Definition analysis_dir : string := "analysis".

Definition report_filename (symbol timestamp : string) : string :=
  "Technical_analysis_" ++ symbol ++ "_" ++ timestamp ++ ".md".

(** [analysis_dir / filename] and its [str], with the POSIX separator. *)
Definition report_path (symbol timestamp : string) : string :=
  analysis_dir ++ "/" ++ report_filename symbol timestamp.

Definition save_report (W : World) (report symbol : string) : M string :=
  path_mkdir W analysis_dir ;;;
  timestamp <- now_strftime W ;;
  let filepath := report_path symbol timestamp in
  try_except_Exception
    (write_file W filepath report ;;;
     ret filepath)
    (fun _ => ret EmptyString).

End StockAnalyzer.
Import StockAnalyzer.

(** ** The data model of the specification *)

Module Spec.

(** The closed set of strategies. *)
Inductive StrategyIdentifier : Type :=
| bollinger_zscore
| bollinger_fibonacci
| macd_donchian
| connors_zscore
| dual_ma.

Definition all_strategies : list StrategyIdentifier :=
  [bollinger_zscore; bollinger_fibonacci; macd_donchian; connors_zscore; dual_ma].

(** The external tool that computes a strategy. *)
Definition tool_of (s : StrategyIdentifier) : string :=
  match s with
  | bollinger_zscore => "analyze_bollinger_zscore_performance"
  | bollinger_fibonacci => "analyze_bollinger_fibonacci_performance"
  | macd_donchian => "analyze_macd_donchian_performance"
  | connors_zscore => "analyze_connors_zscore_performance"
  | dual_ma => "analyze_dual_ma_strategy"
  end.

(** The key of a strategy in the AnalysisResult mapping. *)
Definition key_of (s : StrategyIdentifier) : string :=
  match s with
  | bollinger_zscore => "bollinger_zscore"
  | bollinger_fibonacci => "bollinger_fibonacci"
  | macd_donchian => "macd_donchian"
  | connors_zscore => "connors_zscore"
  | dual_ma => "dual_ma"
  end.

(** The fixed configuration record of a strategy. *)
Definition CanonicalParameters (s : StrategyIdentifier) : dict pyval :=
  match s with
  | bollinger_zscore =>
      [("period", VStr "1y"); ("window", VInt 20)]
  | bollinger_fibonacci =>
      [("period", VStr "1y"); ("window", VInt 20); ("num_std", VInt 2);
       ("fibonacci_levels",
        VList [VInt 0; VFloat (mk_float 236 (-3)); VFloat (mk_float 382 (-3));
               VFloat (mk_float 5 (-1)); VFloat (mk_float 618 (-3));
               VFloat (mk_float 786 (-3)); VInt 1])]
  | macd_donchian =>
      [("period", VStr "1y");
       ("macd_params",
        VDict [("fast_period", VInt 12); ("slow_period", VInt 26); ("signal_period", VInt 9)]);
       ("donchian_window", VInt 20)]
  | connors_zscore =>
      [("period", VStr "1y");
       ("connors_params",
        VDict [("rsi_period", VInt 3); ("streak_period", VInt 2); ("rank_period", VInt 100)]);
       ("zscore_window", VInt 20)]
  | dual_ma =>
      [("period", VStr "1y"); ("short_period", VInt 50); ("long_period", VInt 200);
       ("ma_type", VStr "EMA")]
  end.

(** Membership of a descriptor in the five-tool allow-list. *)
Definition in_allow_list (d : ToolDescriptor) : bool :=
  existsb (fun s => name d =? tool_of s) all_strategies.

(** The specification of one retained descriptor: its name, its
    description or a fallback naming the tool, and a schema that requires
    exactly one string parameter, [symbol]. *)
Definition specification_of (d : ToolDescriptor) : OpenAITool :=
  mk_openai_tool "function"
    (mk_function (name d)
       (match description d with
        | Some (String c rest) => String c rest
        | _ => "Execute " ++ name d ++ " analysis"
        end)
       (mk_parameters "object"
          [("symbol", mk_property "string" "Stock ticker symbol")]
          ["symbol"])).

(** [buildSchema]: filter by the allow-list, keep the order. *)
Definition buildSchema (descriptors : list ToolDescriptor) : list OpenAITool :=
  map specification_of (filter in_allow_list descriptors).

End Spec.

(** ** Reading a run off its interactions *)

(** A call of the tool session: tool name, parameter bag, reply. *)
Record Invocation : Type :=
  mk_invocation { iv_tool : string;
                  iv_parameters : dict pyval;
                  iv_reply : outcome (list ContentBlock) }.

Fixpoint tool_invocations (evs : list event) : list Invocation :=
  match evs with
  | [] => []
  | EvCallTool n p r :: rest => mk_invocation n p r :: tool_invocations rest
  | _ :: rest => tool_invocations rest
  end.

(** The text an invocation hands back: the first content block when it
    is a text block; the absent marker otherwise. *)
Definition reply_text (reply : outcome (list ContentBlock)) : option string :=
  match reply with
  | Ok (TextContent text :: _) => Some text
  | _ => None
  end.

Definition iv_text (iv : Invocation) : option string := reply_text (iv_reply iv).

(** The invocations proposed by the backend in a run. *)
Fixpoint backend_proposals (evs : list event) : list ToolCall :=
  match evs with
  | [] => []
  | EvChat _ (Ok response) :: _ =>
      match choices response with
      | message :: _ => proposed_calls message
      | [] => []
      end
  | _ :: rest => backend_proposals rest
  end.

(** The last invocation stored under [key] that returned a non-empty text. *)
Definition stores_under (key : string) (iv : Invocation) : bool :=
  (analysis_key (iv_tool iv) =? key) && opt_truthy (iv_text iv).

Definition last_stored (key : string) (ivs : list Invocation) : option string :=
  match find (stores_under key) (rev ivs) with
  | Some iv => iv_text iv
  | None => None
  end.

(** The last invocation of [tool] that returned a non-empty text. *)
Definition answers_with_text (tool : string) (iv : Invocation) : bool :=
  (iv_tool iv =? tool) && opt_truthy (iv_text iv).

Definition last_text_of_tool (tool : string) (ivs : list Invocation) : option string :=
  match find (answers_with_text tool) (rev ivs) with
  | Some iv => iv_text iv
  | None => None
  end.

(** The last invocation of [tool] whose result is not the absent marker. *)
Definition answers_for (tool : string) (iv : Invocation) : bool :=
  (iv_tool iv =? tool)
  && match iv_text iv with Some _ => true | None => false end.

Definition last_non_null (tool : string) (ivs : list Invocation) : option string :=
  match find (answers_for tool) (rev ivs) with
  | Some iv => iv_text iv
  | None => None
  end.

(** Only errors, that is exceptions deriving from [Exception]. *)
Definition error_or_value {A : Type} (r : outcome A) : Prop :=
  match r with
  | Ok _ => True
  | Raise e => is_Exception e = true
  end.

(** A world in which nothing the orchestrator touches raises anything
    but errors. *)
Definition raises_errors_only (W : World) : Prop :=
  (forall h, error_or_value (w_list_tools W h))
  /\ (forall h req, error_or_value (w_chat W h req))
  /\ (forall h source, error_or_value (w_eval W h source))
  /\ (forall h n p, error_or_value (w_call_tool W h n p)).

(** ** Concrete worlds *)

Module Examples.

Definition is_lower (c : ascii) : bool :=
  let n := nat_of_ascii c in ((97 <=? n) && (n <=? 122))%nat.

Definition is_upper (c : ascii) : bool :=
  let n := nat_of_ascii c in ((65 <=? n) && (n <=? 90))%nat.

Definition to_upper (c : ascii) : ascii :=
  if is_lower c then ascii_of_nat (nat_of_ascii c - 32) else c.

Definition to_lower (c : ascii) : ascii :=
  if is_upper c then ascii_of_nat (nat_of_ascii c + 32) else c.

(** [str.upper] on ASCII text. *)
Fixpoint upper (s : string) : string :=
  match s with
  | EmptyString => EmptyString
  | String c rest => String (to_upper c) (upper rest)
  end.

(** [str.title] on ASCII text: a letter is capitalised when no letter
    precedes it. *)
Fixpoint title_from (after_letter : bool) (s : string) : string :=
  match s with
  | EmptyString => EmptyString
  | String c rest =>
      let letter := is_lower c || is_upper c in
      String (if after_letter then to_lower c else to_upper c) (title_from letter rest)
  end.

Definition title (s : string) : string := title_from false s.

(** The tool catalog of the server: the five strategies and one more tool. *)
Definition catalog : list ToolDescriptor :=
  [ mk_tool "analyze_bollinger_zscore_performance" (Some "Bollinger Z-Score backtest");
    mk_tool "get_stock_price" (Some "Latest quote");
    mk_tool "analyze_bollinger_fibonacci_performance" None;
    mk_tool "analyze_macd_donchian_performance" (Some "MACD and Donchian backtest");
    mk_tool "analyze_connors_zscore_performance" (Some EmptyString);
    mk_tool "analyze_dual_ma_strategy" (Some "Dual moving average backtest") ].

Definition payload : string := "{'symbol': 'AAPL'}".

Definition propose (tool : string) : ToolCall := mk_tool_call tool payload.

Definition five_calls : list ToolCall := map propose target_tools.

Definition proposing (summary : option string) (calls : list ToolCall) : outcome ChatResponse :=
  Ok (mk_response [mk_message summary (Some calls)]).

(** [eval] on the payloads used below: two dict displays evaluate, any
    other text is taken not to parse. *)
Definition literal_eval (source : string) : outcome unit :=
  if source =? payload then Ok tt
  else if source =? "{}" then Ok tt
  else Raise SyntaxError.

(** The same, with the text [exit()]: the builtin [exit] (installed by
    the [site] module) raises [SystemExit] when it is called. *)
Definition interpreter_eval (source : string) : outcome unit :=
  if source =? "exit()" then Raise SystemExit else literal_eval source.

(** Everything works: the backend proposes the five strategies, every
    tool answers with a text, the report comes back. *)
Definition base_world : World :=
  mk_world
    (fun _ => Ok (Some catalog))
    (fun _ req =>
       match req_tools req with
       | Some _ => proposing (Some "All five strategies were run.") five_calls
       | None => Ok (mk_response [mk_message (Some "# Technical Analysis Report: AAPL") None])
       end)
    (fun _ => literal_eval)
    (fun _ tool _ => Ok [TextContent ("Result of " ++ tool)])
    (fun _ _ _ => Ok ["187.20"; "189.98"])
    (fun _ _ => Ok tt)
    (fun _ _ _ => Ok tt)
    None
    (fun _ => "2024-01-01T00:00:00")
    (fun _ => "20240101_000000")
    upper
    title.

(** Variations of a world, one operation at a time. *)
Definition with_orchestration (W : World) (reply : outcome ChatResponse) : World :=
  mk_world (w_list_tools W)
    (fun h req => match req_tools req with Some _ => reply | None => w_chat W h req end)
    (w_eval W) (w_call_tool W) (w_history W) (w_mkdir W) (w_write W) (w_env_model W)
    (w_now_isoformat W) (w_now_strftime W) (str_upper W) (str_title W).

Definition with_report (W : World) (reply : outcome ChatResponse) : World :=
  mk_world (w_list_tools W)
    (fun h req => match req_tools req with Some _ => w_chat W h req | None => reply end)
    (w_eval W) (w_call_tool W) (w_history W) (w_mkdir W) (w_write W) (w_env_model W)
    (w_now_isoformat W) (w_now_strftime W) (str_upper W) (str_title W).

Definition with_eval (W : World) (f : string -> outcome unit) : World :=
  mk_world (w_list_tools W) (w_chat W) (fun _ => f) (w_call_tool W) (w_history W)
    (w_mkdir W) (w_write W) (w_env_model W) (w_now_isoformat W) (w_now_strftime W)
    (str_upper W) (str_title W).

Definition with_call_tool (W : World)
  (f : history -> string -> dict pyval -> outcome (list ContentBlock)) : World :=
  mk_world (w_list_tools W) (w_chat W) (w_eval W) f (w_history W)
    (w_mkdir W) (w_write W) (w_env_model W) (w_now_isoformat W) (w_now_strftime W)
    (str_upper W) (str_title W).

Definition with_history (W : World) (f : history -> string -> string -> outcome History)
  : World :=
  mk_world (w_list_tools W) (w_chat W) (w_eval W) (w_call_tool W) f
    (w_mkdir W) (w_write W) (w_env_model W) (w_now_isoformat W) (w_now_strftime W)
    (str_upper W) (str_title W).

Definition with_mkdir (W : World) (f : history -> string -> outcome unit) : World :=
  mk_world (w_list_tools W) (w_chat W) (w_eval W) (w_call_tool W) (w_history W)
    f (w_write W) (w_env_model W) (w_now_isoformat W) (w_now_strftime W)
    (str_upper W) (str_title W).

Definition with_write (W : World) (f : history -> string -> string -> outcome unit) : World :=
  mk_world (w_list_tools W) (w_chat W) (w_eval W) (w_call_tool W) (w_history W)
    (w_mkdir W) f (w_env_model W) (w_now_isoformat W) (w_now_strftime W)
    (str_upper W) (str_title W).

(** The backend names a tool outside the five; the server knows it. *)
Definition unknown_tool_world : World :=
  with_call_tool
    (with_orchestration base_world (proposing None [propose "get_stock_price"]))
    (fun _ _ _ => Ok [TextContent "189.98"]).

(** The one tool proposed answers with an empty text. *)
Definition empty_text_world : World :=
  with_call_tool
    (with_orchestration base_world (proposing None [propose "analyze_dual_ma_strategy"]))
    (fun _ _ _ => Ok [TextContent EmptyString]).

(** Every tool fails: the session raises on each call. *)
Definition failing_tools_world : World :=
  with_call_tool base_world (fun _ _ _ => Raise ConnectionError).

(** The argument payload of the proposal is the text [exit()]. *)
Definition exit_payload_world : World :=
  with_eval
    (with_orchestration base_world
       (proposing None [mk_tool_call "analyze_dual_ma_strategy" "exit()"]))
    interpreter_eval.

(** The argument payload of the proposal does not parse. *)
Definition malformed_payload_world : World :=
  with_orchestration base_world
    (proposing None [mk_tool_call "analyze_dual_ma_strategy" "{'symbol': "]).

(** The report call succeeds with an empty text. *)
Definition blank_report_world : World :=
  with_report base_world (Ok (mk_response [mk_message (Some EmptyString) None])).

(** The report call fails. *)
Definition backend_down_world : World :=
  with_report base_world (Raise ConnectionError).

(** The working directory cannot be written to. *)
Definition read_only_world : World :=
  with_mkdir base_world (fun _ dir => Raise (PermissionError dir)).

(** The directory exists, the file cannot be written. *)
Definition write_denied_world : World :=
  with_write base_world (fun _ path _ => Raise (PermissionError path)).

(** The same tool proposed twice: a text first, an empty text second. *)
Definition twice_world : World :=
  with_call_tool
    (with_orchestration base_world
       (proposing None [propose "analyze_dual_ma_strategy"; propose "analyze_dual_ma_strategy"]))
    (fun h _ _ =>
       match tool_invocations h with
       | [] => Ok [TextContent "first answer"]
       | _ :: _ => Ok [TextContent EmptyString]
       end).

(** The same tool proposed twice, two texts. *)
Definition twice_text_world : World :=
  with_call_tool
    (with_orchestration base_world
       (proposing None [propose "analyze_dual_ma_strategy"; propose "analyze_dual_ma_strategy"]))
    (fun h _ _ =>
       match tool_invocations h with
       | [] => Ok [TextContent "first answer"]
       | _ :: _ => Ok [TextContent "second answer"]
       end).

(** The market-data source cannot be reached. *)
Definition offline_world : World :=
  with_history base_world (fun _ _ _ => Raise ConnectionError).

Definition sample_bundle : Bundle :=
  mk_bundle "AAPL"
    [("bollinger_zscore", "Total return 12.4%"); ("dual_ma", "Total return 8.1%")]
    "2024-01-01T00:00:00" 2 "Two strategies were run.".

End Examples.

(** What [execute_mcp_tool] makes of a reply of the session. *)
Definition invoke_result (reply : outcome (list ContentBlock)) : outcome (option string) :=
  match reply with
  | Raise e => if is_Exception e then Ok None else Raise e
  | Ok _ => Ok (reply_text reply)
  end.

(** The effect of one invocation on the mapping. *)
Definition store_invocation (analysis_results : dict string) (iv : Invocation) : dict string :=
  store_result (iv_tool iv) (iv_text iv) analysis_results.

(** The mapping a sequence of invocations leaves behind. *)
Definition collected (ivs : list Invocation) : dict string :=
  fold_left store_invocation ivs [].

(** An invocation carries the parameter bag the code builds for its tool. *)
Definition canonical_event (symbol : string) (ev : event) : Prop :=
  match ev with
  | EvCallTool n p _ => p = tool_params symbol n
  | _ => True
  end.

(** The backend calls of a run. *)
Fixpoint chat_events (evs : list event) : list (ChatRequest * outcome ChatResponse) :=
  match evs with
  | [] => []
  | EvChat req reply :: rest => (req, reply) :: chat_events rest
  | _ :: rest => chat_events rest
  end.

(** The payload evaluations of a run. *)
Fixpoint eval_events (evs : list event) : list (string * outcome unit) :=
  match evs with
  | [] => []
  | EvEval source reply :: rest => (source, reply) :: eval_events rest
  | _ :: rest => eval_events rest
  end.

(** What the synthesizer prints for the price, from the reply of the
    lookup. *)
Definition price_info_of (reply : outcome History) : string :=
  match reply with
  | Ok hist =>
      match rev hist with
      | price :: _ => "$" ++ price
      | [] => "N/A"
      end
  | Raise _ => "N/A"
  end.

(** The heading and body of one analysis in the report request. *)
Definition analysis_section (W : World) (key text : string) : string :=
  "### " ++ dict_get_default key (str_title W key) strategy_names ++ nl ++ nl ++ text.

(** A proposal whose payload evaluates in every history (an empty
    payload is not evaluated). *)
Definition payload_evaluates (W : World) (tc : ToolCall) : Prop :=
  forall h, fst (eval_arguments W (tc_arguments tc) h) = Ok tt.

(** ** The connection to the tool server *)

Module Connection.

(** The two contexts [connect_to_mcp_server] enters on [self.exit_stack]:
    the stdio transport, which yields a read and a write stream, and the
    client session built on them. *)
Inductive Context : Type :=
| StdioContext (read write : nat)
| SessionContext (session : nat).

(** The attributes of the analyzer the two methods use; the head of
    [exit_stack] is the context entered last. *)
Record Analyzer : Type :=
  mk_analyzer { session : option nat; exit_stack : list Context }.

(** [self.session = None] and a fresh [AsyncExitStack], as [__init__]
    leaves them. *)
Definition new_analyzer : Analyzer := mk_analyzer None [].

Inductive cevent : Type :=
| CvExists (path : string) (reply : outcome bool)
| CvStdioClient (command : string) (args : list string) (reply : outcome (nat * nat))
| CvClientSession (read write : nat) (reply : outcome nat)
| CvInitialize (session : nat) (reply : outcome unit)
| CvClose (contexts : list Context) (reply : outcome unit).

Definition chistory : Type := list cevent.

(** The file system, the child process and the protocol library. *)
Record Transport : Type :=
  mk_transport {
    (** [Path(__file__).parent] *)
    t_module_dir : string;
    (** [server_path.exists()] *)
    t_exists : chistory -> string -> outcome bool;
    (** entering [stdio_client(server_params)] *)
    t_stdio_client : chistory -> string -> list string -> outcome (nat * nat);
    (** entering [ClientSession(stdio_read, stdio_write)] *)
    t_client_session : chistory -> nat -> nat -> outcome nat;
    (** [self.session.initialize()] *)
    t_initialize : chistory -> nat -> outcome unit;
    (** leaving the contexts of the stack, the last entered first *)
    t_close : chistory -> list Context -> outcome unit
  }.

(** A method reads and updates the analyzer; an update made before an
    exception is raised stays. *)
Definition CM (A : Type) : Type :=
  Analyzer -> chistory -> outcome A * Analyzer * list cevent.

Definition cret {A : Type} (a : A) : CM A := fun st _ => (Ok a, st, []).

Definition cbind {A B : Type} (m : CM A) (k : A -> CM B) : CM B :=
  fun st h =>
    match m st h with
    | (Ok a, st', evs) =>
        match k a st' (h ++ evs)%list with
        | (r, st'', evs') => (r, st'', (evs ++ evs')%list)
        end
    | (Raise e, st', evs) => (Raise e, st', evs)
    end.

(** [try: body  except Exception as e: handler e] *)
Definition ctry_except_Exception {A : Type} (body : CM A) (handler : exn -> CM A) : CM A :=
  fun st h =>
    match body st h with
    | (Ok a, st', evs) => (Ok a, st', evs)
    | (Raise e, st', evs) =>
        if is_Exception e
        then match handler e st' (h ++ evs)%list with
             | (r, st'', evs') => (r, st'', (evs ++ evs')%list)
             end
        else (Raise e, st', evs)
    end.

(** [try: body  finally: final]; an exception of [final] replaces the
    outcome of [body]. *)
Definition ctry_finally {A : Type} (body : CM A) (final : CM unit) : CM A :=
  fun st h =>
    match body st h with
    | (r, st', evs) =>
        match final st' (h ++ evs)%list with
        | (Ok _, st'', evs') => (r, st'', (evs ++ evs')%list)
        | (Raise e, st'', evs') => (Raise e, st'', (evs ++ evs')%list)
        end
    end.

(** [self.session = value] *)
Definition set_session (value : option nat) : CM unit :=
  fun st _ => (Ok tt, mk_analyzer value (exit_stack st), []).

Definition path_exists (T : Transport) (path : string) : CM bool :=
  fun st h => let r := t_exists T h path in (r, st, [CvExists path r]).

(** [self.exit_stack.enter_async_context(cm)]: the context is pushed when
    entering it succeeds. *)
Definition enter_stdio_client (T : Transport) (command : string) (args : list string)
  : CM (nat * nat) :=
  fun st h =>
    let r := t_stdio_client T h command args in
    (r,
     match r with
     | Ok (rd, wr) => mk_analyzer (session st) (StdioContext rd wr :: exit_stack st)
     | Raise _ => st
     end,
     [CvStdioClient command args r]).

Definition enter_client_session (T : Transport) (rd wr : nat) : CM nat :=
  fun st h =>
    let r := t_client_session T h rd wr in
    (r,
     match r with
     | Ok s => mk_analyzer (session st) (SessionContext s :: exit_stack st)
     | Raise _ => st
     end,
     [CvClientSession rd wr r]).

Definition session_initialize (T : Transport) (s : nat) : CM unit :=
  fun st h => let r := t_initialize T h s in (r, st, [CvInitialize s r]).

(** [self.exit_stack.aclose()]: every context of the stack is left and
    the stack is empty afterwards, also when leaving one raises. *)
Definition exit_stack_aclose (T : Transport) : CM unit :=
  fun st h =>
    let r := t_close T h (exit_stack st) in
    (r, mk_analyzer (session st) [], [CvClose (exit_stack st) r]).

(** [Path(__file__).parent / "server" / "main.py"] *)
Definition server_path (T : Transport) : string := t_module_dir T ++ "/server/main.py".

(** *** [connect_to_mcp_server] *)
Definition connect_to_mcp_server (T : Transport) : CM bool :=
  ctry_except_Exception
    (cbind (path_exists T (server_path T)) (fun found =>
     if negb found
     then cret false
     else
       cbind (enter_stdio_client T "python" [server_path T]) (fun stdio_transport =>
       cbind (enter_client_session T (fst stdio_transport) (snd stdio_transport)) (fun s =>
       cbind (set_session (Some s)) (fun _ =>
       cbind (session_initialize T s) (fun _ =>
       cret true))))))
    (fun _ => cret false).

(** *** [disconnect_from_mcp_server] *)
Definition disconnect_from_mcp_server (T : Transport) : CM unit :=
  ctry_finally
    (ctry_except_Exception (exit_stack_aclose T) (fun _ => cret tt))
    (set_session None).

(** The contexts entered in a sequence of interactions, the last
    entered first. *)
Fixpoint entered_contexts (evs : list cevent) : list Context :=
  match evs with
  | [] => []
  | CvStdioClient _ _ (Ok (rd, wr)) :: rest =>
      (entered_contexts rest ++ [StdioContext rd wr])%list
  | CvClientSession _ _ (Ok s) :: rest =>
      (entered_contexts rest ++ [SessionContext s])%list
  | _ :: rest => entered_contexts rest
  end.

(** A transport that raises nothing but errors. *)
Definition transport_raises_errors_only (T : Transport) : Prop :=
  (forall h p, error_or_value (t_exists T h p))
  /\ (forall h c a, error_or_value (t_stdio_client T h c a))
  /\ (forall h r w, error_or_value (t_client_session T h r w))
  /\ (forall h s, error_or_value (t_initialize T h s)).

(** The server starts and answers the handshake. *)
Definition working_transport : Transport :=
  mk_transport "/opt/app"
    (fun _ _ => Ok true)
    (fun _ _ _ => Ok (3, 4))
    (fun _ _ _ => Ok 7)
    (fun _ _ => Ok tt)
    (fun _ _ => Ok tt).

(** There is no [server/main.py]. *)
Definition missing_server_transport : Transport :=
  mk_transport "/opt/app"
    (fun _ _ => Ok false)
    (fun _ _ _ => Ok (3, 4))
    (fun _ _ _ => Ok 7)
    (fun _ _ => Ok tt)
    (fun _ _ => Ok tt).

(** The server starts, the handshake fails; leaving the contexts fails too. *)
Definition failing_handshake_transport : Transport :=
  mk_transport "/opt/app"
    (fun _ _ => Ok true)
    (fun _ _ _ => Ok (3, 4))
    (fun _ _ _ => Ok 7)
    (fun _ _ => Raise ConnectionError)
    (fun _ _ => Raise ConnectionError).

End Connection.

(** ** More concrete worlds *)

Module Scenarios.

Import Examples.

(** The server offers one tool, outside the five. *)
Definition no_strategy_world : World :=
  mk_world (fun _ => Ok (Some [mk_tool "get_stock_price" (Some "Latest quote")]))
    (w_chat base_world) (w_eval base_world) (w_call_tool base_world)
    (w_history base_world) (w_mkdir base_world) (w_write base_world)
    (w_env_model base_world) (w_now_isoformat base_world) (w_now_strftime base_world)
    (str_upper base_world) (str_title base_world).

(** Two proposals: the first is carried out, the payload of the second
    does not parse. *)
Definition late_malformed_world : World :=
  with_orchestration base_world
    (proposing None
       [ propose "analyze_dual_ma_strategy";
         mk_tool_call "analyze_macd_donchian_performance" "{'symbol': " ]).

(** The price lookup is interrupted. *)
Definition interrupted_lookup_world : World :=
  with_history base_world (fun _ _ _ => Raise SystemExit).

(** The price history has no row. *)
Definition no_rows_world : World :=
  with_history base_world (fun _ _ _ => Ok []).

Definition dual_ma_call : ToolCall := propose "analyze_dual_ma_strategy".

End Scenarios.

(** * Properties *)

(** ** Strings and dictionaries *)

Section Strings.

Lemma rstrip_empty (s : string) : rstrip s = EmptyString <-> all_space s = true.
Proof.
  induction s as [|c rest IH]; simpl.
  - tauto.
  - destruct (rstrip rest) eqn:E.
    + destruct (is_space c); simpl.
      * split; intros _; [apply IH|]; reflexivity.
      * split; intros H; discriminate H.
    + split; intros H; [discriminate H|].
      apply andb_true_iff in H. destruct H as [_ H].
      apply IH in H. discriminate H.
Qed.

Lemma all_space_lstrip (s : string) : all_space (lstrip s) = all_space s.
Proof.
  induction s as [|c rest IH]; simpl; [reflexivity|].
  destruct (is_space c) eqn:E; simpl; [exact IH|].
  rewrite E. reflexivity.
Qed.

Lemma strip_empty (s : string) : strip s = EmptyString <-> all_space s = true.
Proof.
  unfold strip. rewrite rstrip_empty, all_space_lstrip. tauto.
Qed.

Lemma prefix_append (s t : string) : String.prefix s (s ++ t) = true.
Proof.
  induction s as [|c s IH]; simpl.
  - destruct t; reflexivity.
  - destruct (ascii_dec c c) as [_|N]; [exact IH | exfalso; apply N; reflexivity].
Qed.

Lemma string_app_assoc (s t u : string) : (s ++ t) ++ u = s ++ (t ++ u).
Proof. induction s as [|c s IH]; simpl; [reflexivity | f_equal; exact IH]. Qed.

End Strings.

Section Dicts.

Context {V : Type}.

Lemma dict_get_set (k k' : string) (v : V) (d : dict V) :
  dict_get k (dict_set k' v d) = if k =? k' then Some v else dict_get k d.
Proof.
  induction d as [|[k0 v0] d IH]; simpl.
  - reflexivity.
  - destruct (k' =? k0) eqn:E0; simpl.
    + apply String.eqb_eq in E0. subst k0.
      destruct (k =? k'); reflexivity.
    + destruct (k =? k0) eqn:E1.
      * apply String.eqb_eq in E1. subst k0.
        rewrite String.eqb_sym in E0. rewrite E0. reflexivity.
      * exact IH.
Qed.

Lemma dict_set_keys (k k' : string) (v : V) (d : dict V) :
  In k' (dict_keys (dict_set k v d)) <-> k' = k \/ In k' (dict_keys d).
Proof.
  unfold dict_keys. induction d as [|[k0 v0] d IH]; simpl.
  - intuition congruence.
  - destruct (k =? k0) eqn:E; simpl.
    + apply String.eqb_eq in E. subst k0. intuition congruence.
    + rewrite IH. intuition congruence.
Qed.

Lemma dict_set_NoDup (k : string) (v : V) (d : dict V) :
  NoDup (dict_keys d) -> NoDup (dict_keys (dict_set k v d)).
Proof.
  unfold dict_keys. induction d as [|[k0 v0] d IH]; simpl; intros H.
  - constructor; [intros []|constructor].
  - inversion H as [|? ? Hnot Hrest]; subst.
    destruct (k =? k0) eqn:E; simpl.
    + apply String.eqb_eq in E. subst k0. constructor; assumption.
    + constructor; [|apply IH; assumption].
      intros Hin. apply (dict_set_keys k k0 v d) in Hin.
      destruct Hin as [->|Hin]; [|contradiction].
      rewrite String.eqb_refl in E. discriminate E.
Qed.

Lemma dict_set_not_nil (k : string) (v : V) (d : dict V) : dict_set k v d <> [].
Proof. destruct d as [|[k0 v0] d]; simpl; [|destruct (k =? k0)]; discriminate. Qed.

End Dicts.

(** ** The tool session and the loop over the proposals *)

Section Runs.

Variable W : World.

Lemma tool_invocations_app (evs1 evs2 : list event) :
  tool_invocations (evs1 ++ evs2)%list
  = (tool_invocations evs1 ++ tool_invocations evs2)%list.
Proof.
  induction evs1 as [|ev evs1 IH]; simpl; [reflexivity|].
  destruct ev; simpl; rewrite IH; reflexivity.
Qed.

Lemma get_available_tools_run (h : history) :
  get_available_tools W h
  = (match w_list_tools W h with
     | Ok (Some tools) => Ok tools
     | Ok None => Ok []
     | Raise e => if is_Exception e then Ok [] else Raise e
     end,
     [EvListTools (w_list_tools W h)]).
Proof.
  unfold get_available_tools, try_except_Exception, bind, session_list_tools, ret.
  destruct (w_list_tools W h) as [[tools|]|e]; simpl; try reflexivity.
  destruct (is_Exception e); reflexivity.
Qed.

Lemma execute_mcp_tool_run (n : string) (p : dict pyval) (h : history) :
  execute_mcp_tool W n p h
  = (invoke_result (w_call_tool W h n p), [EvCallTool n p (w_call_tool W h n p)]).
Proof.
  unfold execute_mcp_tool, try_except_Exception, bind, session_call_tool, ret.
  destruct (w_call_tool W h n p) as [[|[text|] blocks]|e]; simpl; try reflexivity.
  destruct (is_Exception e); reflexivity.
Qed.

(** [invoke] never raises an error: it returns a text or the absent marker. *)
Lemma execute_mcp_tool_total (n : string) (p : dict pyval) (h : history) :
  error_or_value (w_call_tool W h n p) ->
  fst (execute_mcp_tool W n p h) = Ok (reply_text (w_call_tool W h n p)).
Proof.
  rewrite execute_mcp_tool_run. simpl.
  destruct (w_call_tool W h n p) as [blocks|e]; simpl; [reflexivity|].
  intros ->. reflexivity.
Qed.

Lemma eval_arguments_events (symbol arguments : string) (h : history) :
  tool_invocations (snd (eval_arguments W arguments h)) = []
  /\ Forall (canonical_event symbol) (snd (eval_arguments W arguments h)).
Proof.
  unfold eval_arguments, py_eval, ret.
  destruct (str_truthy arguments); simpl; split; repeat constructor.
Qed.

Lemma process_tool_call_run (symbol : string) (tc : ToolCall) (results : dict string)
  (h : history) :
  process_tool_call W symbol tc results h
  = match eval_arguments W (tc_arguments tc) h with
    | (Raise e, evs) => (Raise e, evs)
    | (Ok _, evs) =>
        let p := tool_params symbol (tc_name tc) in
        let reply := w_call_tool W (h ++ evs)%list (tc_name tc) p in
        (match invoke_result reply with
         | Ok result => Ok (store_result (tc_name tc) result results)
         | Raise e => Raise e
         end,
         (evs ++ [EvCallTool (tc_name tc) p reply])%list)
    end.
Proof.
  unfold process_tool_call, bind.
  destruct (eval_arguments W (tc_arguments tc) h) as [[u|e] evs]; [|reflexivity].
  rewrite execute_mcp_tool_run. cbv zeta.
  destruct (invoke_result _) as [result|e]; reflexivity.
Qed.

(** The loop emits one invocation per proposal, in order, each with the
    bag of its tool, and returns the mapping these invocations leave. *)
Lemma process_tool_calls_run (symbol : string) (calls : list ToolCall) :
  forall (results : dict string) (h : history) r evs,
    process_tool_calls W symbol calls results h = (r, evs) ->
    Forall (canonical_event symbol) evs
    /\ forall results',
        r = Ok results' ->
        results' = fold_left store_invocation (tool_invocations evs) results
        /\ map iv_tool (tool_invocations evs) = map tc_name calls.
Proof.
  induction calls as [|tc calls IH]; intros results h r evs Hrun.
  - simpl in Hrun. unfold ret in Hrun. injection Hrun as <- <-.
    split; [constructor|].
    intros results' [= <-]. split; reflexivity.
  - simpl in Hrun. unfold bind in Hrun.
    rewrite process_tool_call_run in Hrun.
    destruct (eval_arguments_events symbol (tc_arguments tc) h) as (Hnone & Hcanon).
    destruct (eval_arguments W (tc_arguments tc) h) as [[u|e] evs0]; simpl in *.
    + cbv zeta in Hrun.
      set (p := tool_params symbol (tc_name tc)) in *.
      set (reply := w_call_tool W (h ++ evs0)%list (tc_name tc) p) in *.
      assert (Hcall : Forall (canonical_event symbol)
                        (evs0 ++ [EvCallTool (tc_name tc) p reply])%list).
      { apply Forall_app. split; [exact Hcanon|]. repeat constructor. }
      destruct (invoke_result reply) as [result|e] eqn:Einv.
      * destruct (process_tool_calls W symbol calls (store_result (tc_name tc) result results)
                    (h ++ evs0 ++ [EvCallTool (tc_name tc) p reply])%list) as [r1 evs1] eqn:Erest.
        injection Hrun as <- <-.
        destruct (IH _ _ _ _ Erest) as (Hc1 & Hres).
        assert (Hresult : result = reply_text reply).
        { destruct reply as [blocks|e]; simpl in Einv.
          - injection Einv as <-. reflexivity.
          - destruct (is_Exception e); [injection Einv as <-; reflexivity | discriminate Einv]. }
        split; [apply Forall_app; split; assumption|].
        intros results' Hok. destruct (Hres _ Hok) as [-> Hnames].
        rewrite !tool_invocations_app, Hnone. simpl.
        unfold store_invocation at 2. unfold iv_text. simpl.
        rewrite Hresult, Hnames. split; reflexivity.
      * injection Hrun as <- <-.
        split; [assumption|].
        intros results' Hok. discriminate Hok.
    + injection Hrun as <- <-.
      split; [assumption|].
      intros results' Hok. discriminate Hok.
Qed.

End Runs.

(** ** The orchestrator, step by step *)

Section Orchestrator.

Variable W : World.

Lemma assemble_run (symbol : string) (message : Message) (results : dict string)
  (h : history) :
  assemble W symbol message results h
  = (Ok (match results with
         | [] => ErrorResult "No analysis results obtained from OpenAI tool calls"
         | _ :: _ =>
             AnalysisBundle
               (mk_bundle symbol results (w_now_isoformat W h) (List.length results)
                  (str_or (content message) "Analysis completed via tool calls"))
         end),
     []).
Proof. destruct results; reflexivity. Qed.

(** The body of the [try], unfolded along the replies of the world. *)
Lemma analyze_with_openai_body_run (symbol : string) (h : history) :
  analyze_with_openai_body W symbol h
  = let ev_list := EvListTools (w_list_tools W h) in
    match fst (get_available_tools W h) with
    | Raise e => (Raise e, [ev_list])
    | Ok mcp_tools =>
        let openai_tools := create_openai_tools_schema mcp_tools in
        if negb (list_truthy openai_tools)
        then (Ok (ErrorResult "No analysis tools available"), [ev_list])
        else
          let req := analysis_request W symbol openai_tools in
          let reply := w_chat W (h ++ [ev_list])%list req in
          let ev_chat := EvChat req reply in
          match reply with
          | Raise e => (Raise e, [ev_list; ev_chat])
          | Ok response =>
              match choices response with
              | [] => (Raise IndexError, [ev_list; ev_chat])
              | message :: _ =>
                  let h' := ((h ++ [ev_list]) ++ [ev_chat])%list in
                  match process_tool_calls W symbol (proposed_calls message) [] h' with
                  | (Raise e, evs) => (Raise e, ev_list :: ev_chat :: evs)
                  | (Ok results, evs) =>
                      (fst (assemble W symbol message results (h' ++ evs)%list),
                       ev_list :: ev_chat :: evs)
                  end
              end
          end
    end.
Proof.
  unfold analyze_with_openai_body, bind at 1.
  rewrite get_available_tools_run. cbv zeta. simpl fst.
  destruct (match w_list_tools W h with
            | Ok (Some tools) => Ok tools
            | Ok None => Ok []
            | Raise e => if is_Exception e then Ok [] else Raise e
            end) as [mcp_tools|e]; [|reflexivity].
  destruct (negb (list_truthy (create_openai_tools_schema mcp_tools))); [reflexivity|].
  unfold bind at 1, chat_completions_create. cbv zeta.
  destruct (w_chat W _ _) as [response|e]; [|reflexivity].
  unfold bind at 1, first_message.
  destruct (choices response) as [|message rest]; [reflexivity|].
  unfold ret at 1. rewrite !app_nil_r.
  unfold bind at 1.
  replace (if list_truthy (proposed_calls message)
           then process_tool_calls W symbol (proposed_calls message) []
           else ret [])
    with (process_tool_calls W symbol (proposed_calls message) [])
    by (destruct (proposed_calls message); reflexivity).
  destruct (process_tool_calls W symbol (proposed_calls message) [] _) as [[results|e] evs];
    [|reflexivity].
  rewrite assemble_run. simpl. rewrite app_nil_r. reflexivity.
Qed.

(** The handler of the [try] emits nothing. *)
Lemma analyze_with_openai_events (symbol : string) (h : history) :
  snd (analyze_with_openai W symbol h) = snd (analyze_with_openai_body W symbol h).
Proof.
  unfold analyze_with_openai, try_except_Exception.
  destruct (analyze_with_openai_body W symbol h) as [[out|e] evs]; [reflexivity|].
  destruct (is_Exception e); simpl; [apply app_nil_r | reflexivity].
Qed.

(** The result of the [try]: a value of the body, an error turned into an
    [ErrorResult], or an exception that is not an error. *)
Lemma analyze_with_openai_result (symbol : string) (h : history) :
  fst (analyze_with_openai W symbol h)
  = match fst (analyze_with_openai_body W symbol h) with
    | Ok out => Ok out
    | Raise e =>
        if is_Exception e
        then Ok (ErrorResult ("OpenAI analysis failed: " ++ exn_str e))
        else Raise e
    end.
Proof.
  unfold analyze_with_openai, try_except_Exception.
  destruct (analyze_with_openai_body W symbol h) as [[out|e] evs]; [reflexivity|].
  simpl. destruct (is_Exception e); reflexivity.
Qed.

(** Every invocation of a run carries the bag the code builds for its tool. *)
Lemma analyze_with_openai_canonical (symbol : string) (h : history) :
  Forall (canonical_event symbol) (snd (analyze_with_openai W symbol h)).
Proof.
  rewrite analyze_with_openai_events, analyze_with_openai_body_run. cbv zeta.
  destruct (fst (get_available_tools W h)) as [mcp_tools|e]; [|repeat constructor].
  destruct (negb _); [repeat constructor|].
  destruct (w_chat W _ _) as [response|e]; [|repeat constructor].
  destruct (choices response) as [|message rest]; [repeat constructor|].
  destruct (process_tool_calls W symbol (proposed_calls message) [] _) as [r evs] eqn:Eloop.
  apply process_tool_calls_run in Eloop. destruct Eloop as (Hcanon & _).
  destruct r; simpl; repeat (constructor; [exact I|]); exact Hcanon.
Qed.

(** A run that returns a bundle: the backend answered, the loop went
    through all the proposals, and the bundle holds what the loop left. *)
Lemma analyze_with_openai_bundle (symbol : string) (h : history) (b : Bundle) :
  fst (analyze_with_openai W symbol h) = Ok (AnalysisBundle b) ->
  exists req message rest evs,
    let ev_list := EvListTools (w_list_tools W h) in
    let ev_chat := EvChat req (Ok (mk_response (message :: rest))) in
    let h' := ((h ++ [ev_list]) ++ [ev_chat])%list in
    snd (analyze_with_openai W symbol h) = ev_list :: ev_chat :: evs
    /\ process_tool_calls W symbol (proposed_calls message) [] h' = (Ok (analyses b), evs)
    /\ analyses b <> []
    /\ b = mk_bundle symbol (analyses b) (w_now_isoformat W (h' ++ evs)%list)
             (List.length (analyses b))
             (str_or (content message) "Analysis completed via tool calls").
Proof.
  rewrite analyze_with_openai_result, analyze_with_openai_events,
    analyze_with_openai_body_run. cbv zeta.
  destruct (fst (get_available_tools W h)) as [mcp_tools|e];
    [|simpl; destruct (is_Exception e); discriminate].
  destruct (negb _); [discriminate|].
  destruct (w_chat W _ _) as [[chs]|e] eqn:Echat;
    [|simpl; destruct (is_Exception e); discriminate].
  simpl choices. destruct chs as [|message rest]; [discriminate|].
  destruct (process_tool_calls W symbol (proposed_calls message) [] _) as [[results|e] evs]
    eqn:Eloop; [|simpl; destruct (is_Exception e); discriminate].
  rewrite assemble_run. simpl fst. simpl snd.
  destruct results as [|kv results]; [discriminate|].
  intros [= <-]. simpl analyses.
  exists (analysis_request W symbol (create_openai_tools_schema mcp_tools)), message, rest, evs.
  cbv zeta. repeat split.
  - exact Eloop.
  - discriminate.
Qed.

End Orchestrator.

(** ** What the mapping holds *)

Section Mapping.

Lemma store_invocation_NoDup (d : dict string) (iv : Invocation) :
  NoDup (dict_keys d) -> NoDup (dict_keys (store_invocation d iv)).
Proof.
  intros H. unfold store_invocation, store_result.
  destruct (iv_text iv) as [text|]; [|exact H].
  destruct (str_truthy text); [apply dict_set_NoDup|]; exact H.
Qed.

Lemma fold_store_NoDup (ivs : list Invocation) :
  forall d, NoDup (dict_keys d) -> NoDup (dict_keys (fold_left store_invocation ivs d)).
Proof.
  induction ivs as [|iv ivs IH]; intros d H; simpl; [exact H|].
  apply IH, store_invocation_NoDup, H.
Qed.

(** Last write wins: the entry of a key is the text of the last
    invocation that stored under it. *)
Lemma fold_store_get (key : string) (ivs : list Invocation) (d : dict string) :
  dict_get key (fold_left store_invocation ivs d)
  = match find (stores_under key) (rev ivs) with
    | Some iv => iv_text iv
    | None => dict_get key d
    end.
Proof.
  induction ivs as [|iv ivs IH] using rev_ind; [reflexivity|].
  rewrite fold_left_app, rev_app_distr. simpl.
  unfold store_invocation at 1, store_result, stores_under at 1.
  destruct (iv_text iv) as [text|] eqn:Etext; simpl.
  - destruct (str_truthy text) eqn:Etruthy; simpl.
    + rewrite dict_get_set, andb_true_r, String.eqb_sym.
      destruct (analysis_key (iv_tool iv) =? key); [rewrite Etext; reflexivity | exact IH].
    + rewrite andb_false_r. exact IH.
  - rewrite andb_false_r. exact IH.
Qed.

(** Nothing is stored when no invocation returns a non-empty text. *)
Lemma fold_store_nothing (ivs : list Invocation) :
  forall d,
    Forall (fun iv => opt_truthy (iv_text iv) = false) ivs ->
    fold_left store_invocation ivs d = d.
Proof.
  induction ivs as [|iv ivs IH]; intros d H; simpl; [reflexivity|].
  inversion H as [|? ? Hiv Hrest]; subst.
  rewrite <- (IH d Hrest) at 2. f_equal.
  unfold store_invocation, store_result.
  destruct (iv_text iv) as [text|]; [|reflexivity].
  simpl in Hiv. rewrite Hiv. reflexivity.
Qed.

Lemma tool_params_canonical (symbol : string) (s : Spec.StrategyIdentifier) :
  tool_params symbol (Spec.tool_of s) = ("symbol", VStr symbol) :: Spec.CanonicalParameters s.
Proof. destruct s; reflexivity. Qed.

Lemma target_tools_strategies (n : string) :
  str_in n target_tools = true <-> exists s, n = Spec.tool_of s.
Proof.
  unfold str_in, target_tools. simpl. split.
  - intros H.
    repeat (apply orb_true_iff in H; destruct H as [H|H];
            [apply String.eqb_eq in H; subst n|]).
    + exists Spec.bollinger_zscore. reflexivity.
    + exists Spec.bollinger_fibonacci. reflexivity.
    + exists Spec.macd_donchian. reflexivity.
    + exists Spec.connors_zscore. reflexivity.
    + exists Spec.dual_ma. reflexivity.
    + discriminate H.
  - intros [s ->]. destruct s; reflexivity.
Qed.

(** Outside the five tools the chain adds nothing and the key is the
    tool name itself. *)
Lemma unrecognized_tool (symbol n : string) :
  str_in n target_tools = false ->
  tool_params symbol n = [("symbol", VStr symbol)] /\ analysis_key n = n.
Proof.
  unfold str_in, target_tools. simpl. intros H.
  repeat (apply orb_false_iff in H; destruct H as [?E H]).
  unfold tool_params, canonical_update, analysis_key, dict_get_default, key_mapping.
  simpl. rewrite E, E0, E1, E2, E3. split; reflexivity.
Qed.

End Mapping.

(** ** The parameters sent to a tool *)



(** ** Proposals outside the five tools *)




(** ** Which results are stored *)




(** ** Totality of the run *)

Section Totality.

Variable W : World.
Hypothesis Herrors : raises_errors_only W.

Lemma process_tool_calls_errors (symbol : string) (calls : list ToolCall) :
  forall (results : dict string) (h : history),
    error_or_value (fst (process_tool_calls W symbol calls results h)).
Proof.
  destruct Herrors as (_ & _ & Heval & Hcall).
  induction calls as [|tc calls IH]; intros results h; simpl; [exact I|].
  unfold bind. rewrite process_tool_call_run.
  unfold eval_arguments, py_eval, ret.
  destruct (str_truthy (tc_arguments tc)).
  - pose proof (Heval h (tc_arguments tc)) as He.
    destruct (w_eval W h (tc_arguments tc)) as [u|e]; [|exact He].
    cbv zeta.
    match goal with |- context [invoke_result ?r] =>
      pose proof (Hcall (h ++ [EvEval (tc_arguments tc) (Ok u)])%list (tc_name tc)
                    (tool_params symbol (tc_name tc))) as Hc;
      destruct r as [blocks|e] end; simpl.
    + match goal with |- context [process_tool_calls W symbol calls ?d ?h'] =>
        specialize (IH d h'); destruct (process_tool_calls W symbol calls d h') end.
      exact IH.
    + simpl in Hc. rewrite Hc.
      match goal with |- context [process_tool_calls W symbol calls ?d ?h'] =>
        specialize (IH d h'); destruct (process_tool_calls W symbol calls d h') end.
      exact IH.
  - cbv zeta.
    match goal with |- context [invoke_result ?r] =>
      pose proof (Hcall (h ++ [])%list (tc_name tc)
                    (tool_params symbol (tc_name tc))) as Hc;
      destruct r as [blocks|e] end; simpl.
    + match goal with |- context [process_tool_calls W symbol calls ?d ?h'] =>
        specialize (IH d h'); destruct (process_tool_calls W symbol calls d h') end.
      exact IH.
    + simpl in Hc. rewrite Hc.
      match goal with |- context [process_tool_calls W symbol calls ?d ?h'] =>
        specialize (IH d h'); destruct (process_tool_calls W symbol calls d h') end.
      exact IH.
Qed.

(** What the body of the [try] gives: a value of one of three shapes, or
    an error. *)
Lemma analyze_with_openai_body_errors (symbol : string) (h : history) :
  match fst (analyze_with_openai_body W symbol h) with
  | Ok (ErrorResult msg) =>
      msg = "No analysis tools available"
      \/ msg = "No analysis results obtained from OpenAI tool calls"
  | Ok (AnalysisBundle b) => True
  | Raise e => is_Exception e = true
  end.
Proof.
  destruct Herrors as (Hlist & Hchat & _ & _).
  rewrite analyze_with_openai_body_run, get_available_tools_run. cbv zeta. simpl fst.
  pose proof (Hlist h) as Hl.
  destruct (w_list_tools W h) as [[tools|]|e]; simpl in Hl.
  - destruct (negb _); [left; reflexivity|].
    match goal with |- context [w_chat W ?h' ?req] =>
      pose proof (Hchat h' req) as Hc; destruct (w_chat W h' req) as [response|e] end;
      [|exact Hc].
    destruct (choices response) as [|message rest]; [reflexivity|].
    match goal with |- context [process_tool_calls W symbol ?c ?d ?h'] =>
      pose proof (process_tool_calls_errors symbol c d h') as Hp;
      destruct (process_tool_calls W symbol c d h') as [[results|e] evs] end;
      [|exact Hp].
    rewrite assemble_run. simpl. destruct results; [right; reflexivity | exact I].
  - simpl. left. reflexivity.
  - rewrite Hl. simpl. left. reflexivity.
Qed.

End Totality.



Lemma raises_errors_only_malformed_payload_world :
  raises_errors_only Examples.malformed_payload_world.
Proof.
  split; [|split; [|split]]; intros; simpl.
  - exact I.
  - destruct (req_tools req); exact I.
  - unfold Examples.literal_eval.
    destruct (source =? Examples.payload); [exact I|].
    destruct (source =? "{}"); [exact I | reflexivity].
  - exact I.
Qed.


(** A payload that does not parse ends the run with the error of the parser. *)
Example malformed_payload_run :
  fst (analyze_with_openai Examples.malformed_payload_world "AAPL" [])
  = Ok (ErrorResult "OpenAI analysis failed: invalid syntax").
Proof. vm_compute. reflexivity. Qed.

(** ** The end of the run *)



(** Every tool fails: the mapping stays empty and the run is an error. *)
Example failing_tools_run :
  fst (analyze_with_openai Examples.failing_tools_world "AAPL" [])
  = Ok (ErrorResult "No analysis results obtained from OpenAI tool calls")
  /\ map iv_text (tool_invocations (snd (analyze_with_openai Examples.failing_tools_world "AAPL" [])))
     = [None; None; None; None; None].
Proof. vm_compute. split; reflexivity. Qed.

(** ** The report synthesizer *)

Section Synthesizer.

Variable W : World.

Lemma current_price_info_run (symbol : string) (h : history) :
  exists price_info,
    current_price_info W symbol h
    = (Ok price_info, [EvHistory symbol "1d" (w_history W h symbol "1d")]).
Proof.
  unfold current_price_info, try_except_all, bind, ticker_history, last_close, ret, raise.
  destruct (w_history W h symbol "1d") as [hist|e]; simpl.
  - destruct (rev hist) as [|price rest]; simpl; eexists; reflexivity.
  - eexists; reflexivity.
Qed.

(** The synthesizer, unfolded along the replies of the world: one price
    lookup, one backend call. *)
Lemma generate_final_report_with_ai_run (symbol : string) (analysis_data : Bundle)
  (h : history) :
  exists req,
    let ev_price := EvHistory symbol "1d" (w_history W h symbol "1d") in
    let reply := w_chat W (h ++ [ev_price])%list req in
    generate_final_report_with_ai W symbol analysis_data h
    = (match reply with
       | Ok response =>
           match choices response with
           | message :: _ => Ok (content message)
           | [] => Ok (Some (fallback_report symbol IndexError))
           end
       | Raise e =>
           if is_Exception e then Ok (Some (fallback_report symbol e)) else Raise e
       end,
       [ev_price; EvChat req reply]).
Proof.
  destruct (current_price_info_run symbol h) as [price_info Hprice].
  exists (report_request W
            (final_analysis_prompt symbol price_info (total_strategies analysis_data)
               (map (individual_analysis W) (analyses analysis_data)))).
  cbv zeta.
  unfold generate_final_report_with_ai, try_except_Exception, bind at 1.
  rewrite Hprice.
  unfold bind at 1, chat_completions_create. cbv zeta.
  destruct (w_chat W _ _) as [response|e]; simpl.
  - unfold bind, first_message, ret, raise.
    destruct (choices response) as [|message rest]; reflexivity.
  - destruct (is_Exception e); reflexivity.
Qed.

Lemma fallback_report_prefix (symbol : string) (e : exn) :
  String.prefix ("# Technical Analysis Report: " ++ symbol) (fallback_report symbol e) = true.
Proof.
  unfold fallback_report.
  rewrite <- (string_app_assoc "# Technical Analysis Report: " symbol).
  apply prefix_append.
Qed.

End Synthesizer.




(** ** The report store *)

Section Store.

Variable W : World.

(** [save_report], unfolded along the replies of the world. *)
Lemma save_report_run (report symbol : string) (h : history) :
  save_report W report symbol h
  = let ev_mkdir := EvMkdir analysis_dir (w_mkdir W h analysis_dir) in
    match w_mkdir W h analysis_dir with
    | Raise e => (Raise e, [ev_mkdir])
    | Ok _ =>
        let h' := (h ++ [ev_mkdir])%list in
        let filepath := report_path symbol (w_now_strftime W h') in
        let reply := w_write W h' filepath report in
        (match reply with
         | Ok _ => Ok filepath
         | Raise e => if is_Exception e then Ok EmptyString else Raise e
         end,
         [ev_mkdir; EvWrite filepath report reply])
    end.
Proof.
  unfold save_report, bind at 1, path_mkdir. cbv zeta.
  destruct (w_mkdir W h analysis_dir) as [u|e]; [|reflexivity].
  unfold bind at 1, now_strftime. rewrite app_nil_r.
  unfold try_except_Exception, bind, write_file, ret. cbv zeta.
  destruct (w_write W _ _ report) as [u'|e]; simpl; [reflexivity|].
  destruct (is_Exception e); reflexivity.
Qed.

(** The file is written: the path is returned. *)
Lemma save_report_success (report symbol : string) (h : history) :
  let h' := (h ++ [EvMkdir analysis_dir (Ok tt)])%list in
  let filepath := report_path symbol (w_now_strftime W h') in
  w_mkdir W h analysis_dir = Ok tt ->
  w_write W h' filepath report = Ok tt ->
  fst (save_report W report symbol h) = Ok filepath.
Proof.
  intros h' filepath Hmk Hwr. rewrite save_report_run, Hmk. cbv zeta.
  fold h'. fold filepath. rewrite Hwr. reflexivity.
Qed.

(** The write fails with an error: the empty string is returned. *)
Lemma save_report_write_error (report symbol : string) (h : history) (e : exn) :
  let h' := (h ++ [EvMkdir analysis_dir (Ok tt)])%list in
  let filepath := report_path symbol (w_now_strftime W h') in
  w_mkdir W h analysis_dir = Ok tt ->
  w_write W h' filepath report = Raise e ->
  is_Exception e = true ->
  fst (save_report W report symbol h) = Ok EmptyString.
Proof.
  intros h' filepath Hmk Hwr He. rewrite save_report_run, Hmk. cbv zeta.
  fold h'. fold filepath. rewrite Hwr. simpl. rewrite He. reflexivity.
Qed.

(** The directory cannot be created: the exception is not caught. *)
Lemma save_report_mkdir_error (report symbol : string) (h : history) (e : exn) :
  w_mkdir W h analysis_dir = Raise e ->
  save_report W report symbol h = (Raise e, [EvMkdir analysis_dir (Raise e)]).
Proof. intros Hmk. rewrite save_report_run, Hmk. reflexivity. Qed.

End Store.

(** C7.  The code at the failing input: the working directory is
    read-only, [mkdir] raises [PermissionError] before the [try] is
    entered, and the error leaves [save_report] where the claim has it
    converted to the empty string.  (A failure of the write itself is
    converted, see [save_report_write_error].) *)
Theorem C7_mkdir_failure_escapes :
  save_report Examples.read_only_world "# Technical Analysis Report: AAPL" "AAPL" []
  = (Raise (PermissionError "analysis"),
     [EvMkdir "analysis" (Raise (PermissionError "analysis"))])
  /\ is_Exception (PermissionError "analysis") = true
  /\ save_report Examples.write_denied_world "# Technical Analysis Report: AAPL" "AAPL" []
     = (Ok EmptyString,
        [EvMkdir "analysis" (Ok tt);
         EvWrite "analysis/Technical_analysis_AAPL_20240101_000000.md"
           "# Technical Analysis Report: AAPL"
           (Raise (PermissionError "analysis/Technical_analysis_AAPL_20240101_000000.md"))])
  /\ fst (save_report Examples.base_world "# Technical Analysis Report: AAPL" "AAPL" [])
     = Ok "analysis/Technical_analysis_AAPL_20240101_000000.md".
Proof. vm_compute. repeat split. Qed.

(** ** The market data validator *)

(** C8.  An empty or whitespace-only symbol gives [False] with no
    interaction at all.  For any other symbol there is one lookup, of the
    stripped and upper-cased symbol over five days; an error raised by
    the lookup gives [False], and as long as the lookup raises nothing
    but errors the validator returns a boolean. *)
Theorem C8_validate_symbol_fails_closed (W : World) (symbol : string) (h : history) :
  (all_space symbol = true -> validate_symbol W symbol h = (Ok false, []))
  /\ (all_space symbol = false ->
      snd (validate_symbol W symbol h)
      = [EvHistory (str_upper W (strip symbol)) "5d"
           (w_history W h (str_upper W (strip symbol)) "5d")]
      /\ forall e,
          w_history W h (str_upper W (strip symbol)) "5d" = Raise e ->
          is_Exception e = true ->
          fst (validate_symbol W symbol h) = Ok false)
  /\ (error_or_value (w_history W h (str_upper W (strip symbol)) "5d") ->
      exists b, fst (validate_symbol W symbol h) = Ok b).
Proof.
  unfold validate_symbol.
  destruct (all_space symbol) eqn:Espace.
  - assert (Hstrip : strip symbol = EmptyString) by (apply strip_empty; exact Espace).
    rewrite Hstrip. simpl. rewrite orb_true_r.
    split; [reflexivity|]. split; [discriminate|].
    intros _. exists false. reflexivity.
  - assert (Hsym : str_truthy symbol = true).
    { destruct symbol; [discriminate Espace | reflexivity]. }
    assert (Hstrip : str_truthy (strip symbol) = true).
    { destruct (strip symbol) eqn:E; [|reflexivity].
      apply strip_empty in E. congruence. }
    rewrite Hsym, Hstrip. simpl.
    unfold try_except_Exception, bind, ticker_history, ret. cbv zeta.
    destruct (w_history W h (str_upper W (strip symbol)) "5d") as [hist|e]; simpl.
    + split; [discriminate|].
      split.
      * intros _. split; [destruct hist; reflexivity|]. discriminate.
      * intros _. destruct hist; [exists false | exists true]; reflexivity.
    + split; [discriminate|].
      split.
      * intros _. split; [destruct (is_Exception e); reflexivity|].
        intros e' [= <-] ->. reflexivity.
      * intros ->. exists false. reflexivity.
Qed.

Lemma C8_witness :
  validate_symbol Examples.base_world "   " [] = (Ok false, [])
  /\ fst (validate_symbol Examples.offline_world " aapl " []) = Ok false
  /\ exists b, fst (validate_symbol Examples.base_world " aapl " []) = Ok b.
Proof.
  split; [|split].
  - exact (proj1 (C8_validate_symbol_fails_closed Examples.base_world "   " []) eq_refl).
  - exact (proj2 (proj1 (proj2 (C8_validate_symbol_fails_closed
                                  Examples.offline_world " aapl " [])) eq_refl)
             ConnectionError eq_refl eq_refl).
  - exact (proj2 (proj2 (C8_validate_symbol_fails_closed Examples.base_world " aapl " [])) I).
Defined.

(** ** The tool schema adapter *)

Section Adapter.

Lemma in_allow_list_target_tools (d : ToolDescriptor) :
  Spec.in_allow_list d = str_in (name d) target_tools.
Proof. reflexivity. Qed.

(** The entry the code builds is the entry the specification describes. *)
Lemma openai_tool_specification (d : ToolDescriptor) :
  add_symbol_parameter (openai_tool_literal d) = Spec.specification_of d.
Proof.
  unfold add_symbol_parameter, openai_tool_literal, Spec.specification_of. simpl.
  destruct (description d) as [[|c rest]|]; reflexivity.
Qed.

(** The loop appends, to the list built so far, the entries of the
    retained descriptors in their order. *)
Lemma schema_loop_buildSchema (descriptors : list ToolDescriptor) :
  forall openai_tools,
    schema_loop descriptors openai_tools = (openai_tools ++ Spec.buildSchema descriptors)%list.
Proof.
  unfold Spec.buildSchema.
  induction descriptors as [|d rest IH]; intros openai_tools.
  - simpl. rewrite app_nil_r. reflexivity.
  - cbn [schema_loop filter]. rewrite in_allow_list_target_tools.
    destruct (str_in (name d) target_tools); [|apply IH].
    cbn [map]. rewrite IH, <- app_assoc, openai_tool_specification. reflexivity.
Qed.

End Adapter.

(** C9.  The schema is the input filtered by the five-tool allow-list and
    nothing else: the retained descriptors appear in their input order,
    each as its name, its description (the fallback [Execute <name>
    analysis] when the description is missing or empty) and a parameter
    schema of type object whose one property, [symbol] of type string, is
    required; the size of the schema is the number of descriptors in the
    allow-list. *)
Theorem C9_schema_is_filtered_catalog (descriptors : list ToolDescriptor) :
  create_openai_tools_schema descriptors = Spec.buildSchema descriptors
  /\ map (fun t => fn_name (tool_function t)) (create_openai_tools_schema descriptors)
     = filter (fun n => str_in n target_tools) (map name descriptors)
  /\ List.length (create_openai_tools_schema descriptors)
     = List.length (filter Spec.in_allow_list descriptors)
  /\ Forall (fun t =>
               tool_type t = "function"
               /\ fn_parameters (tool_function t)
                  = mk_parameters "object"
                      [("symbol", mk_property "string" "Stock ticker symbol")]
                      ["symbol"])
       (create_openai_tools_schema descriptors).
Proof.
  assert (Heq : create_openai_tools_schema descriptors = Spec.buildSchema descriptors).
  { unfold create_openai_tools_schema. rewrite schema_loop_buildSchema. reflexivity. }
  rewrite Heq. unfold Spec.buildSchema.
  split; [reflexivity|]. split; [|split].
  - clear Heq. induction descriptors as [|d rest IH]; [reflexivity|].
    cbn [filter map]. rewrite in_allow_list_target_tools.
    destruct (str_in (name d) target_tools); cbn [map]; rewrite IH; reflexivity.
  - apply length_map.
  - apply Forall_map. apply Forall_forall. intros d _. simpl. split; reflexivity.
Qed.

(** The catalog of the examples: the second tool is dropped, the missing
    and the empty description are replaced. *)
Example schema_of_catalog :
  map (fun t => (fn_name (tool_function t), fn_description (tool_function t)))
    (create_openai_tools_schema Examples.catalog)
  = [ ("analyze_bollinger_zscore_performance", "Bollinger Z-Score backtest");
      ("analyze_bollinger_fibonacci_performance",
       "Execute analyze_bollinger_fibonacci_performance analysis");
      ("analyze_macd_donchian_performance", "MACD and Donchian backtest");
      ("analyze_connors_zscore_performance",
       "Execute analyze_connors_zscore_performance analysis");
      ("analyze_dual_ma_strategy", "Dual moving average backtest") ].
Proof. vm_compute. reflexivity. Qed.

(** ** A tool proposed more than once *)

Section Repeated.

(** On the tools of the five strategies, the key of a tool is the key of
    a strategy exactly for the tool of that strategy. *)
Lemma analysis_key_of_strategy (s s' : Spec.StrategyIdentifier) :
  (analysis_key (Spec.tool_of s') =? Spec.key_of s) = (Spec.tool_of s' =? Spec.tool_of s).
Proof. destruct s, s'; reflexivity. Qed.

Lemma find_ext_in {A : Type} (f g : A -> bool) (l : list A) :
  (forall a, In a l -> f a = g a) -> find f l = find g l.
Proof.
  induction l as [|a l IH]; intros H; simpl; [reflexivity|].
  rewrite (H a (or_introl eq_refl)).
  destruct (g a); [reflexivity|]. apply IH. intros a' Ha'. apply H. right. exact Ha'.
Qed.

Lemma last_stored_of_strategy (s : Spec.StrategyIdentifier) (ivs : list Invocation) :
  Forall (fun iv => str_in (iv_tool iv) target_tools = true) ivs ->
  last_stored (Spec.key_of s) ivs = last_text_of_tool (Spec.tool_of s) ivs.
Proof.
  intros Hall. unfold last_stored, last_text_of_tool.
  rewrite (find_ext_in (stores_under (Spec.key_of s)) (answers_with_text (Spec.tool_of s)));
    [reflexivity|].
  intros iv Hin. apply in_rev in Hin.
  rewrite Forall_forall in Hall. specialize (Hall iv Hin).
  apply target_tools_strategies in Hall. destruct Hall as [s' Hs'].
  unfold stores_under, answers_with_text. rewrite Hs', analysis_key_of_strategy.
  reflexivity.
Qed.

End Repeated.




(** * Further properties of the pipeline *)

(** ** The loop over the proposals, continued *)

Section Loop.

Variable W : World.

(** One turn of the loop, then the rest. *)
Lemma process_tool_calls_cons (symbol : string) (tc : ToolCall) (calls : list ToolCall)
  (results : dict string) (h : history) :
  process_tool_calls W symbol (tc :: calls) results h
  = match eval_arguments W (tc_arguments tc) h with
    | (Raise e, evs0) => (Raise e, evs0)
    | (Ok _, evs0) =>
        let p := tool_params symbol (tc_name tc) in
        let reply := w_call_tool W (h ++ evs0)%list (tc_name tc) p in
        let call := EvCallTool (tc_name tc) p reply in
        match invoke_result reply with
        | Raise e => (Raise e, (evs0 ++ [call])%list)
        | Ok result =>
            let (r, evs1) :=
              process_tool_calls W symbol calls (store_result (tc_name tc) result results)
                (h ++ evs0 ++ [call])%list in
            (r, ((evs0 ++ [call]) ++ evs1)%list)
        end
    end.
Proof.
  simpl. unfold bind at 1. rewrite process_tool_call_run.
  destruct (eval_arguments W (tc_arguments tc) h) as [[u|e] evs0]; [|reflexivity].
  cbv zeta. destruct (invoke_result _) as [result|e]; reflexivity.
Qed.

Lemma eval_arguments_run (arguments : string) (h : history) :
  eval_arguments W arguments h
  = if str_truthy arguments
    then (w_eval W h arguments, [EvEval arguments (w_eval W h arguments)])
    else (Ok tt, []).
Proof. unfold eval_arguments, py_eval, ret. destruct (str_truthy arguments); reflexivity. Qed.

(** A payload whose evaluation raises ends the loop there. *)
Lemma process_tool_calls_eval_raise (symbol : string) (calls : list ToolCall) :
  forall (results : dict string) (h : history) r evs,
    process_tool_calls W symbol calls results h = (r, evs) ->
    forall source e,
      In (EvEval source (Raise e)) evs ->
      r = Raise e /\ exists pre, evs = (pre ++ [EvEval source (Raise e)])%list.
Proof.
  induction calls as [|tc calls IH]; intros results h r evs Hrun source e Hin.
  - simpl in Hrun. unfold ret in Hrun. injection Hrun as <- <-. destruct Hin.
  - rewrite process_tool_calls_cons, eval_arguments_run in Hrun.
    destruct (str_truthy (tc_arguments tc)).
    + destruct (w_eval W h (tc_arguments tc)) as [u|e0] eqn:Eeval.
      * cbv zeta in Hrun.
        destruct (invoke_result _) as [result|e1].
        -- destruct (process_tool_calls W symbol calls _ _) as [r1 evs1] eqn:Erest.
           injection Hrun as <- <-.
           simpl in Hin. destruct Hin as [Hin|[Hin|Hin]]; try discriminate Hin.
           destruct (IH _ _ _ _ Erest _ _ Hin) as [-> [pre ->]].
           split; [reflexivity|].
           eexists (_ :: _ :: pre). reflexivity.
        -- injection Hrun as <- <-.
           simpl in Hin. destruct Hin as [Hin|[Hin|[]]]; discriminate Hin.
      * injection Hrun as <- <-.
        destruct Hin as [Hin|[]]. injection Hin as <- <-.
        split; [reflexivity|]. exists []. reflexivity.
    + cbv zeta in Hrun.
      destruct (invoke_result _) as [result|e1].
      * destruct (process_tool_calls W symbol calls _ _) as [r1 evs1] eqn:Erest.
        injection Hrun as <- <-.
        simpl in Hin. destruct Hin as [Hin|Hin]; try discriminate Hin.
        destruct (IH _ _ _ _ Erest _ _ Hin) as [-> [pre ->]].
        split; [reflexivity|].
        eexists (_ :: pre). reflexivity.
      * injection Hrun as <- <-.
        simpl in Hin. destruct Hin as [Hin|[]]; discriminate Hin.
Qed.

(** The tools invoked are the first proposals, in their order. *)
Lemma process_tool_calls_prefix (symbol : string) (calls : list ToolCall) :
  forall (results : dict string) (h : history),
    exists k,
      map iv_tool (tool_invocations (snd (process_tool_calls W symbol calls results h)))
      = firstn k (map tc_name calls).
Proof.
  induction calls as [|tc calls IH]; intros results h.
  - exists 0. reflexivity.
  - rewrite process_tool_calls_cons.
    destruct (eval_arguments_events W symbol (tc_arguments tc) h) as [Hnone _].
    destruct (eval_arguments W (tc_arguments tc) h) as [[u|e] evs0]; simpl in Hnone.
    + cbv zeta. destruct (invoke_result _) as [result|e1].
      * match goal with |- context [process_tool_calls W symbol calls ?d ?h'] =>
          destruct (IH d h') as [k Hk];
          destruct (process_tool_calls W symbol calls d h') as [r1 evs1] end.
        exists (S k). simpl snd in *.
        rewrite !tool_invocations_app, Hnone. simpl. rewrite Hk. reflexivity.
      * exists 1. simpl snd. rewrite tool_invocations_app, Hnone. reflexivity.
    + exists 0. simpl. rewrite Hnone. reflexivity.
Qed.

(** The loop never calls the backend. *)
Lemma chat_events_app (evs1 evs2 : list event) :
  chat_events (evs1 ++ evs2)%list = (chat_events evs1 ++ chat_events evs2)%list.
Proof.
  induction evs1 as [|ev evs1 IH]; simpl; [reflexivity|].
  destruct ev; simpl; rewrite IH; reflexivity.
Qed.

Lemma process_tool_calls_no_chat (symbol : string) (calls : list ToolCall) :
  forall (results : dict string) (h : history),
    chat_events (snd (process_tool_calls W symbol calls results h)) = [].
Proof.
  induction calls as [|tc calls IH]; intros results h; [reflexivity|].
  rewrite process_tool_calls_cons, eval_arguments_run.
  destruct (str_truthy (tc_arguments tc)).
  - destruct (w_eval W h (tc_arguments tc)) as [u|e]; [|reflexivity].
    cbv zeta. destruct (invoke_result _) as [result|e1]; [|reflexivity].
    match goal with |- context [process_tool_calls W symbol calls ?d ?h'] =>
      specialize (IH d h');
      destruct (process_tool_calls W symbol calls d h') as [r1 evs1] end.
    simpl in *. exact IH.
  - cbv zeta. destruct (invoke_result _) as [result|e1]; [|reflexivity].
    match goal with |- context [process_tool_calls W symbol calls ?d ?h'] =>
      specialize (IH d h');
      destruct (process_tool_calls W symbol calls d h') as [r1 evs1] end.
    simpl in *. exact IH.
Qed.

(** When the payloads evaluate and the session raises nothing but
    errors, the loop reaches its end. *)
Lemma process_tool_calls_completes (symbol : string) (calls : list ToolCall) :
  Forall (payload_evaluates W) calls ->
  (forall h n p, error_or_value (w_call_tool W h n p)) ->
  forall (results : dict string) (h : history),
    exists results', fst (process_tool_calls W symbol calls results h) = Ok results'.
Proof.
  intros Hpayloads Hsession.
  induction calls as [|tc calls IH]; intros results h.
  - exists results. reflexivity.
  - inversion Hpayloads as [|? ? Htc Hrest]; subst.
    rewrite process_tool_calls_cons.
    specialize (Htc h).
    destruct (eval_arguments W (tc_arguments tc) h) as [[u|e] evs0]; [|discriminate Htc].
    cbv zeta.
    pose proof (Hsession (h ++ evs0)%list (tc_name tc) (tool_params symbol (tc_name tc)))
      as Hr.
    destruct (w_call_tool W (h ++ evs0)%list (tc_name tc) (tool_params symbol (tc_name tc)))
      as [blocks|e]; simpl in Hr; simpl invoke_result; [|rewrite Hr]; cbv beta iota.
    + match goal with |- context [process_tool_calls W symbol calls ?d ?h'] =>
        destruct (IH Hrest d h') as [results' Hres];
        destruct (process_tool_calls W symbol calls d h') as [r1 evs1] end.
      exists results'. exact Hres.
    + match goal with |- context [process_tool_calls W symbol calls ?d ?h'] =>
        destruct (IH Hrest d h') as [results' Hres];
        destruct (process_tool_calls W symbol calls d h') as [r1 evs1] end.
      exists results'. exact Hres.
Qed.

End Loop.

(** ** Runs of the orchestrator, continued *)

Section MoreRuns.

Variable W : World.

(** The interactions of a run, along the replies of the world. *)
Lemma analyze_with_openai_trace (symbol : string) (h : history) :
  snd (analyze_with_openai W symbol h)
  = let ev_list := EvListTools (w_list_tools W h) in
    match fst (get_available_tools W h) with
    | Raise _ => [ev_list]
    | Ok mcp_tools =>
        let openai_tools := create_openai_tools_schema mcp_tools in
        if negb (list_truthy openai_tools)
        then [ev_list]
        else
          let req := analysis_request W symbol openai_tools in
          let reply := w_chat W (h ++ [ev_list])%list req in
          ev_list :: EvChat req reply ::
            match reply with
            | Ok response =>
                match choices response with
                | message :: _ =>
                    snd (process_tool_calls W symbol (proposed_calls message) []
                           ((h ++ [ev_list]) ++ [EvChat req reply])%list)
                | [] => []
                end
            | Raise _ => []
            end
    end.
Proof.
  rewrite analyze_with_openai_events, analyze_with_openai_body_run. cbv zeta.
  destruct (fst (get_available_tools W h)) as [mcp_tools|e]; [|reflexivity].
  destruct (negb _); [reflexivity|].
  destruct (w_chat W _ _) as [response|e]; [|reflexivity].
  destruct (choices response) as [|message rest]; [reflexivity|].
  destruct (process_tool_calls W symbol (proposed_calls message) [] _) as [[results|e] evs];
    reflexivity.
Qed.

Lemma in_chat_events (req : ChatRequest) (reply : outcome ChatResponse) (evs : list event) :
  In (EvChat req reply) evs -> In (req, reply) (chat_events evs).
Proof.
  induction evs as [|ev evs IH]; intros Hin; [destruct Hin|].
  destruct Hin as [->|Hin]; [left; reflexivity|].
  destruct ev; simpl; try (apply IH; exact Hin). right. apply IH. exact Hin.
Qed.

(** The tools offered to the backend are among the five. *)
Lemma schema_names_allowed (mcp_tools : list ToolDescriptor) :
  Forall (fun t => str_in (fn_name (tool_function t)) target_tools = true)
    (create_openai_tools_schema mcp_tools).
Proof.
  unfold create_openai_tools_schema. rewrite schema_loop_buildSchema. simpl.
  unfold Spec.buildSchema. apply Forall_map. apply Forall_forall.
  intros d Hd. apply filter_In in Hd. destruct Hd as [_ Hd].
  rewrite in_allow_list_target_tools in Hd. exact Hd.
Qed.

Lemma str_or_nonempty (o : option string) (c : ascii) (rest : string) :
  str_or o (String c rest) <> EmptyString.
Proof.
  unfold str_or. destruct o as [[|c' s]|]; simpl; discriminate.
Qed.

End MoreRuns.

(** The pieces of a run: the listing, the schema test, the backend call,
    the first message, the loop. *)
Ltac run_cases W symbol h :=
  rewrite ?analyze_with_openai_result, ?analyze_with_openai_events,
    ?analyze_with_openai_body_run;
  cbv zeta;
  destruct (fst (get_available_tools W h)) as [?mcp_tools|?e] eqn:?Etools;
  [ destruct (negb (list_truthy (create_openai_tools_schema mcp_tools))) eqn:?Eschema;
    [ | destruct (w_chat W _ _) as [[[|?message ?rest]]|?e] eqn:?Echat;
        cbv beta iota delta [choices];
        [ | match goal with
            | |- context [process_tool_calls W symbol ?calls [] ?h'] =>
                destruct (process_tool_calls W symbol calls [] h')
                  as [[?results|?e] ?evs] eqn:?Eloop
            end | ] ]
  | ].

(** X1.  No tool of the five in the catalog, no listing at all, or a listing
    that fails with an error: the run ends with the error of the missing
    tools after the listing alone; the backend is not called and no tool
    is invoked. *)
Theorem no_tools_no_backend_call (W : World) (symbol : string) (h : history) :
  match w_list_tools W h with
  | Ok (Some mcp_tools) => filter Spec.in_allow_list mcp_tools = []
  | Ok None => True
  | Raise e => is_Exception e = true
  end ->
  analyze_with_openai W symbol h
  = (Ok (ErrorResult "No analysis tools available"), [EvListTools (w_list_tools W h)]).
Proof.
  intros Hlist.
  assert (Hschema : exists mcp_tools,
             fst (get_available_tools W h) = Ok mcp_tools
             /\ create_openai_tools_schema mcp_tools = []).
  { rewrite get_available_tools_run. simpl.
    destruct (w_list_tools W h) as [[mcp_tools|]|e].
    - exists mcp_tools. split; [reflexivity|].
      unfold create_openai_tools_schema. rewrite schema_loop_buildSchema.
      unfold Spec.buildSchema. rewrite Hlist. reflexivity.
    - exists []. split; reflexivity.
    - rewrite Hlist. exists []. split; reflexivity. }
  destruct Hschema as (mcp_tools & Htools & Hempty).
  rewrite (surjective_pairing (analyze_with_openai W symbol h)).
  rewrite analyze_with_openai_result, analyze_with_openai_events,
    analyze_with_openai_body_run. cbv zeta.
  rewrite Htools, Hempty. reflexivity.
Qed.

Lemma no_tools_no_backend_call_witness :
  analyze_with_openai Scenarios.no_strategy_world "AAPL" []
  = (Ok (ErrorResult "No analysis tools available"),
     [EvListTools (Ok (Some [mk_tool "get_stock_price" (Some "Latest quote")]))]).
Proof.
  exact (no_tools_no_backend_call Scenarios.no_strategy_world "AAPL" [] eq_refl).
Defined.

(** X2.  A payload whose evaluation raises an error ends the run at once: the
    evaluation is the last interaction, the tool of that proposal and the
    proposals after it are not invoked, and the run returns the error of
    the failed analysis, whatever the earlier invocations had returned. *)
Theorem payload_error_aborts_run
  (W : World) (symbol : string) (h : history) (source : string) (e : exn) :
  In (EvEval source (Raise e)) (snd (analyze_with_openai W symbol h)) ->
  is_Exception e = true ->
  fst (analyze_with_openai W symbol h)
  = Ok (ErrorResult ("OpenAI analysis failed: " ++ exn_str e))
  /\ exists pre, snd (analyze_with_openai W symbol h) = (pre ++ [EvEval source (Raise e)])%list.
Proof.
  run_cases W symbol h; simpl; intros Hin He;
    repeat (destruct Hin as [Hin|Hin]; [discriminate Hin|]); try (destruct Hin; fail).
  - destruct (process_tool_calls_eval_raise W symbol _ _ _ _ _ Eloop _ _ Hin) as [Heq _].
    discriminate Heq.
  - destruct (process_tool_calls_eval_raise W symbol _ _ _ _ _ Eloop _ _ Hin)
      as [Heq [pre ->]].
    injection Heq as ->. rewrite He. split; [reflexivity|].
    eexists (_ :: _ :: pre). reflexivity.
Qed.

Lemma payload_error_aborts_run_witness :
  fst (analyze_with_openai Scenarios.late_malformed_world "AAPL" [])
  = Ok (ErrorResult "OpenAI analysis failed: invalid syntax")
  /\ map iv_text
       (tool_invocations (snd (analyze_with_openai Scenarios.late_malformed_world "AAPL" [])))
     = [Some "Result of analyze_dual_ma_strategy"].
Proof.
  split; [|vm_compute; reflexivity].
  refine (proj1 (payload_error_aborts_run Scenarios.late_malformed_world "AAPL" []
                   "{'symbol': " SyntaxError _ eq_refl)).
  vm_compute. do 4 right. left. reflexivity.
Defined.






(** ** The size and the order of the mapping *)

Section MappingGrowth.

Lemma dict_set_keys_app {V : Type} (k : string) (v : V) (d : dict V) :
  dict_keys (dict_set k v d)
  = (dict_keys d ++ (if dict_mem k d then [] else [k]))%list.
Proof.
  unfold dict_keys, dict_mem. induction d as [|[k0 v0] d IH]; simpl; [reflexivity|].
  destruct (k =? k0) eqn:E; simpl.
  - apply String.eqb_eq in E. subst k0. rewrite app_nil_r. reflexivity.
  - rewrite IH. reflexivity.
Qed.

Lemma store_invocation_keys (d : dict string) (iv : Invocation) :
  exists added,
    dict_keys (store_invocation d iv) = (dict_keys d ++ added)%list
    /\ List.length added <= 1
    /\ forall k, In k added -> k = analysis_key (iv_tool iv).
Proof.
  unfold store_invocation, store_result.
  destruct (iv_text iv) as [text|];
    [destruct (str_truthy text)|];
    try (exists []; rewrite app_nil_r; repeat split; simpl; [lia | intros k []]).
  rewrite dict_set_keys_app.
  destruct (dict_mem (analysis_key (iv_tool iv)) d).
  - exists []. repeat split; simpl; [lia | intros k []].
  - exists [analysis_key (iv_tool iv)]. repeat split; simpl; [lia|].
    intros k [<-|[]]. reflexivity.
Qed.

(** The invocations add keys at the end of the mapping, at most one
    each, and every key added is the key of an invoked tool. *)
Lemma fold_store_keys (ivs : list Invocation) :
  forall d,
    exists added,
      dict_keys (fold_left store_invocation ivs d) = (dict_keys d ++ added)%list
      /\ List.length added <= List.length ivs
      /\ forall k, In k added -> exists iv, In iv ivs /\ k = analysis_key (iv_tool iv).
Proof.
  induction ivs as [|iv ivs IH]; intros d; simpl.
  - exists []. rewrite app_nil_r. repeat split; [simpl; lia | intros k []].
  - destruct (store_invocation_keys d iv) as (a1 & Hk1 & Hl1 & Hin1).
    destruct (IH (store_invocation d iv)) as (a2 & Hk2 & Hl2 & Hin2).
    exists (a1 ++ a2)%list. rewrite Hk2, Hk1, <- app_assoc.
    split; [reflexivity|]. split; [rewrite length_app; lia|].
    intros k Hk. apply in_app_or in Hk. destruct Hk as [Hk|Hk].
    + exists iv. split; [left; reflexivity | apply Hin1; exact Hk].
    + destruct (Hin2 k Hk) as (iv' & Hiv' & ->). exists iv'. split; [right|]; trivial.
Qed.

Lemma find_all_false {A : Type} (f : A -> bool) (l : list A) :
  Forall (fun a => f a = false) l -> find f l = None.
Proof.
  induction 1 as [|a l Ha _ IH]; simpl; [reflexivity|]. rewrite Ha. exact IH.
Qed.

Lemma analysis_key_strategy (s : Spec.StrategyIdentifier) :
  analysis_key (Spec.tool_of s) = Spec.key_of s.
Proof. destruct s; reflexivity. Qed.

End MappingGrowth.







(** ** One invocation of the tool session *)

(** X9.  [execute_mcp_tool] calls the session exactly once, with the name and
    the bag it was given.  It returns a text exactly when the reply
    starts with a text block, the absent marker when the reply is empty,
    starts with a block without text, or the call raised an error, and it
    raises only what is not an error. *)
Theorem invoke_calls_session_once
  (W : World) (n : string) (p : dict pyval) (h : history) :
  snd (execute_mcp_tool W n p h) = [EvCallTool n p (w_call_tool W h n p)]
  /\ (forall text,
         fst (execute_mcp_tool W n p h) = Ok (Some text)
         <-> exists blocks, w_call_tool W h n p = Ok (TextContent text :: blocks))
  /\ (fst (execute_mcp_tool W n p h) = Ok None
      <-> w_call_tool W h n p = Ok []
          \/ (exists blocks, w_call_tool W h n p = Ok (OtherContent :: blocks))
          \/ (exists e, w_call_tool W h n p = Raise e /\ is_Exception e = true))
  /\ (forall e,
         fst (execute_mcp_tool W n p h) = Raise e
         <-> w_call_tool W h n p = Raise e /\ is_Exception e = false).
Proof.
  rewrite execute_mcp_tool_run. simpl.
  split; [reflexivity|].
  destruct (w_call_tool W h n p) as [[|[t|] blocks]|e0]; simpl.
  - split; [|split].
    + intros text. split; [discriminate | intros [bs H]; discriminate H].
    + split; [intros _; left; reflexivity | reflexivity].
    + intros e. split; [discriminate | intros [H _]; discriminate H].
  - split; [|split].
    + intros text. split.
      * intros [= <-]. exists blocks. reflexivity.
      * intros [bs [= <- _]]. reflexivity.
    + split; [discriminate|].
      intros [H|[[bs H]|[e [H _]]]]; discriminate H.
    + intros e. split; [discriminate | intros [H _]; discriminate H].
  - split; [|split].
    + intros text. split; [discriminate | intros [bs H]; discriminate H].
    + split; [intros _; right; left; exists blocks; reflexivity | reflexivity].
    + intros e. split; [discriminate | intros [H _]; discriminate H].
  - split; [|split].
    + intros text. split; [|intros [bs H]; discriminate H].
      destruct (is_Exception e0); discriminate.
    + split.
      * destruct (is_Exception e0) eqn:E; [|discriminate].
        intros _. right. right. exists e0. split; [reflexivity | exact E].
      * intros [H|[[bs H]|[e [H He]]]]; try discriminate H.
        injection H as ->. rewrite He. reflexivity.
    + intros e. split.
      * destruct (is_Exception e0) eqn:E; [discriminate|].
        intros [= <-]. split; [reflexivity | exact E].
      * intros [[= ->] ->]. reflexivity.
Qed.

Lemma invoke_calls_session_once_witness :
  fst (execute_mcp_tool Examples.base_world "analyze_dual_ma_strategy"
         [("symbol", VStr "AAPL")] [])
  = Ok (Some "Result of analyze_dual_ma_strategy")
  /\ fst (execute_mcp_tool Examples.failing_tools_world "analyze_dual_ma_strategy"
            [("symbol", VStr "AAPL")] [])
     = Ok None.
Proof.
  split.
  - apply (proj1 (proj2 (invoke_calls_session_once Examples.base_world
                           "analyze_dual_ma_strategy" [("symbol", VStr "AAPL")] []))).
    exists []. reflexivity.
  - apply (proj1 (proj2 (proj2 (invoke_calls_session_once Examples.failing_tools_world
                                  "analyze_dual_ma_strategy" [("symbol", VStr "AAPL")] [])))).
    right. right. exists ConnectionError. split; reflexivity.
Defined.

(** ** The validator and the entry point *)

Section Normalisation.

Lemma rstrip_idempotent (s : string) : rstrip (rstrip s) = rstrip s.
Proof.
  induction s as [|c rest IH]; [reflexivity|].
  simpl. destruct (rstrip rest) as [|c' r] eqn:E.
  - destruct (is_space c) eqn:Ec; simpl; [reflexivity|]. rewrite Ec. reflexivity.
  - simpl in IH |- *. rewrite IH. reflexivity.
Qed.

(** [rstrip] keeps a first character that is not whitespace. *)
Lemma rstrip_head (c : ascii) (rest : string) :
  is_space c = false -> exists r, rstrip (String c rest) = String c r.
Proof.
  intros Hc. simpl. destruct (rstrip rest) as [|c' r].
  - rewrite Hc. exists EmptyString. reflexivity.
  - exists (String c' r). reflexivity.
Qed.

Lemma lstrip_head (s : string) :
  lstrip s = EmptyString
  \/ exists c rest, lstrip s = String c rest /\ is_space c = false.
Proof.
  induction s as [|c rest IH]; simpl; [left; reflexivity|].
  destruct (is_space c) eqn:Ec; [exact IH|].
  right. exists c, rest. split; [reflexivity | exact Ec].
Qed.

(** Stripping twice is stripping once. *)
Lemma strip_idempotent (s : string) : strip (strip s) = strip s.
Proof.
  unfold strip.
  destruct (lstrip_head s) as [E|(c & rest & E & Hc)]; rewrite E.
  - reflexivity.
  - destruct (rstrip_head c rest Hc) as [r Hr].
    rewrite Hr. simpl lstrip. rewrite Hc. rewrite <- Hr. apply rstrip_idempotent.
Qed.

Lemma all_space_strip (s : string) : all_space (strip s) = all_space s.
Proof.
  destruct (all_space s) eqn:E.
  - apply strip_empty in E. rewrite E. reflexivity.
  - destruct (all_space (strip s)) eqn:E'; [|reflexivity].
    apply strip_empty in E'. rewrite strip_idempotent in E'.
    apply strip_empty in E'. congruence.
Qed.

End Normalisation.

Section Validator.

Variable W : World.

(** The validator, along the reply of the lookup. *)
Lemma validate_symbol_run (symbol : string) (h : history) :
  validate_symbol W symbol h
  = if all_space symbol
    then (Ok false, [])
    else
      let reply := w_history W h (str_upper W (strip symbol)) "5d" in
      (match reply with
       | Ok [] => Ok false
       | Ok (_ :: _) => Ok true
       | Raise e => if is_Exception e then Ok false else Raise e
       end,
       [EvHistory (str_upper W (strip symbol)) "5d" reply]).
Proof.
  unfold validate_symbol.
  destruct (all_space symbol) eqn:Espace.
  - assert (Hstrip : strip symbol = EmptyString) by (apply strip_empty; exact Espace).
    rewrite Hstrip. simpl. rewrite orb_true_r. reflexivity.
  - assert (Hsym : str_truthy symbol = true).
    { destruct symbol; [discriminate Espace | reflexivity]. }
    assert (Hstrip : str_truthy (strip symbol) = true).
    { destruct (strip symbol) eqn:E; [|reflexivity].
      apply strip_empty in E. congruence. }
    rewrite Hsym, Hstrip. simpl.
    unfold try_except_Exception, bind, ticker_history, ret. cbv zeta.
    destruct (w_history W h (str_upper W (strip symbol)) "5d") as [[|row rows]|e]; simpl;
      try reflexivity.
    destruct (is_Exception e); reflexivity.
Qed.

(** The entry point, along the verdict of the validator. *)
Lemma analyze_stock_run (symbol : string) (h : history) :
  analyze_stock W symbol h
  = let normalized := strip (str_upper W symbol) in
    match validate_symbol W normalized h with
    | (Ok true, evs) =>
        (fst (analyze_with_openai W normalized (h ++ evs)%list),
         (evs ++ snd (analyze_with_openai W normalized (h ++ evs)%list))%list)
    | (Ok false, evs) =>
        (Ok (ErrorResult ("Invalid or non-existent symbol: " ++ normalized)), evs)
    | (Raise e, evs) => (Raise e, evs)
    end.
Proof.
  unfold analyze_stock, bind. cbv zeta.
  destruct (validate_symbol W (strip (str_upper W symbol)) h) as [[[|]|e] evs]; simpl.
  - destruct (analyze_with_openai W _ _); reflexivity.
  - rewrite app_nil_r. reflexivity.
  - reflexivity.
Qed.

(** The bag of every tool, recognized or not, holds the symbol. *)
Lemma tool_params_symbol (symbol tool_name : string) :
  dict_get "symbol" (tool_params symbol tool_name) = Some (VStr symbol).
Proof.
  unfold tool_params, canonical_update.
  repeat match goal with
         | |- context [if ?c then _ else _] => destruct c
         end; reflexivity.
Qed.

Lemma tool_params_head (symbol tool_name : string) :
  hd_error (tool_params symbol tool_name) = Some ("symbol", VStr symbol).
Proof.
  unfold tool_params, canonical_update.
  repeat match goal with
         | |- context [if ?c then _ else _] => destruct c
         end; reflexivity.
Qed.

Lemma canonical_invocations (symbol : string) (evs : list event) :
  Forall (canonical_event symbol) evs ->
  Forall (fun iv => iv_parameters iv = tool_params symbol (iv_tool iv)) (tool_invocations evs).
Proof.
  induction 1 as [|ev evs Hev _ IH]; simpl; [constructor|].
  destruct ev; try exact IH. constructor; [exact Hev | exact IH].
Qed.

End Validator.

(** X10.  The validator answers [True] exactly when the symbol is not blank
    and the lookup of its stripped, upper-cased form over five days
    returns at least one row. *)
Theorem validate_symbol_true_iff_rows (W : World) (symbol : string) (h : history) :
  fst (validate_symbol W symbol h) = Ok true
  <-> all_space symbol = false
      /\ exists row rows,
          w_history W h (str_upper W (strip symbol)) "5d" = Ok (row :: rows).
Proof.
  rewrite validate_symbol_run.
  destruct (all_space symbol); simpl.
  - split; [discriminate | intros [H _]; discriminate H].
  - destruct (w_history W h (str_upper W (strip symbol)) "5d") as [[|row rows]|e]; simpl.
    + split; [discriminate | intros [_ (r & rs & H)]; discriminate H].
    + split; [intros _; split; [reflexivity | exists row, rows; reflexivity] | reflexivity].
    + split; [|intros [_ (r & rs & H)]; discriminate H].
      destruct (is_Exception e); discriminate.
Qed.

Lemma validate_symbol_true_iff_rows_witness :
  fst (validate_symbol Examples.base_world " aapl " []) = Ok true.
Proof.
  apply (proj2 (validate_symbol_true_iff_rows Examples.base_world " aapl " [])).
  split; [reflexivity|]. exists "187.20", ["189.98"]. reflexivity.
Defined.

(** X11.  A symbol that is blank once upper-cased, or whose lookup returns no
    row or fails with an error, stops the pipeline at the entry point:
    the result names the normalized symbol, at most the one lookup was
    made, and neither the tool session nor the backend was touched. *)
Theorem invalid_symbol_stops_pipeline (W : World) (symbol : string) (h : history) :
  let normalized := strip (str_upper W symbol) in
  let reply := w_history W h (str_upper W normalized) "5d" in
  all_space (str_upper W symbol) = true
  \/ reply = Ok []
  \/ (exists e, reply = Raise e /\ is_Exception e = true) ->
  analyze_stock W symbol h
  = (Ok (ErrorResult ("Invalid or non-existent symbol: " ++ normalized)),
     if all_space (str_upper W symbol)
     then []
     else [EvHistory (str_upper W normalized) "5d" reply]).
Proof.
  intros normalized reply Hinvalid. subst normalized reply.
  rewrite analyze_stock_run. cbv zeta. rewrite validate_symbol_run. cbv zeta.
  rewrite all_space_strip, strip_idempotent.
  destruct (all_space (str_upper W symbol)) eqn:Espace; [reflexivity|].
  destruct Hinvalid as [H|[H|(e & H & He)]]; [discriminate H| |]; rewrite H.
  - reflexivity.
  - rewrite He. reflexivity.
Qed.

Lemma invalid_symbol_stops_pipeline_witness :
  analyze_stock Examples.offline_world " aapl " []
  = (Ok (ErrorResult "Invalid or non-existent symbol: AAPL"),
     [EvHistory "AAPL" "5d" (Raise ConnectionError)])
  /\ analyze_stock Examples.base_world "   " []
     = (Ok (ErrorResult "Invalid or non-existent symbol: "), []).
Proof.
  split.
  - apply (invalid_symbol_stops_pipeline Examples.offline_world " aapl " []).
    right. right. exists ConnectionError. split; reflexivity.
  - apply (invalid_symbol_stops_pipeline Examples.base_world "   " []).
    left. reflexivity.
Defined.

(** X12.  A symbol that passes the validator is handed to the orchestrator in
    its normalized form, after the one lookup: the result of the entry
    point is the result of the orchestrator on that symbol. *)
Theorem valid_symbol_runs_orchestrator
  (W : World) (symbol : string) (h : history) (row : string) (rows : History) :
  let normalized := strip (str_upper W symbol) in
  let lookup := EvHistory (str_upper W normalized) "5d" (Ok (row :: rows)) in
  all_space (str_upper W symbol) = false ->
  w_history W h (str_upper W normalized) "5d" = Ok (row :: rows) ->
  analyze_stock W symbol h
  = (fst (analyze_with_openai W normalized (h ++ [lookup])%list),
     lookup :: snd (analyze_with_openai W normalized (h ++ [lookup])%list)).
Proof.
  intros normalized lookup Hspace Hrows. subst normalized lookup.
  rewrite analyze_stock_run. cbv zeta. rewrite validate_symbol_run. cbv zeta.
  rewrite all_space_strip, strip_idempotent, Hspace, Hrows. reflexivity.
Qed.

Lemma valid_symbol_runs_orchestrator_witness :
  fst (analyze_stock Examples.unknown_tool_world " aapl " [])
  = Ok (AnalysisBundle
          (mk_bundle "AAPL" [("get_stock_price", "189.98")] "2024-01-01T00:00:00" 1
             "Analysis completed via tool calls")).
Proof.
  rewrite (valid_symbol_runs_orchestrator Examples.unknown_tool_world " aapl " []
             "187.20" ["189.98"] eq_refl eq_refl).
  vm_compute. reflexivity.
Defined.



(** ** The report request *)

Section ReportRequest.

Lemma string_app_nil_r (s : string) : s ++ EmptyString = s.
Proof. induction s as [|c s IH]; simpl; [reflexivity | rewrite IH; reflexivity]. Qed.

(** A part of a joined text is a piece of the text. *)
Lemma join_in (sep x : string) (parts : list string) :
  In x parts -> exists before after, join sep parts = before ++ x ++ after.
Proof.
  unfold join. induction parts as [|a parts IH]; intros Hin; [destruct Hin|].
  destruct parts as [|b parts].
  - destruct Hin as [<-|[]]. exists EmptyString, EmptyString.
    simpl. rewrite string_app_nil_r. reflexivity.
  - change (String.concat sep (a :: b :: parts))
      with (a ++ sep ++ String.concat sep (b :: parts)).
    destruct Hin as [<-|Hin].
    + exists EmptyString, (sep ++ String.concat sep (b :: parts)). reflexivity.
    + destruct (IH Hin) as (before & after & ->).
      exists (a ++ sep ++ before), after.
      rewrite !string_app_assoc. reflexivity.
Qed.

Lemma price_info_run (W : World) (symbol : string) (h : history) :
  current_price_info W symbol h
  = (Ok (price_info_of (w_history W h symbol "1d")),
     [EvHistory symbol "1d" (w_history W h symbol "1d")]).
Proof.
  unfold current_price_info, try_except_all, bind, ticker_history, last_close, ret, raise,
    price_info_of.
  destruct (w_history W h symbol "1d") as [hist|e]; simpl; [|reflexivity].
  destruct (rev hist) as [|price rest]; reflexivity.
Qed.

(** The interactions of the synthesizer: the lookup, then the request. *)
Lemma generate_final_report_trace
  (W : World) (symbol : string) (analysis_data : Bundle) (h : history) :
  snd (generate_final_report_with_ai W symbol analysis_data h)
  = [EvHistory symbol "1d" (w_history W h symbol "1d");
     EvChat
       (report_request W
          (final_analysis_prompt symbol (price_info_of (w_history W h symbol "1d"))
             (total_strategies analysis_data)
             (map (individual_analysis W) (analyses analysis_data))))
       (w_chat W (h ++ [EvHistory symbol "1d" (w_history W h symbol "1d")])%list
          (report_request W
             (final_analysis_prompt symbol (price_info_of (w_history W h symbol "1d"))
                (total_strategies analysis_data)
                (map (individual_analysis W) (analyses analysis_data)))))].
Proof.
  unfold generate_final_report_with_ai, try_except_Exception, bind at 1.
  rewrite price_info_run.
  unfold bind at 1, chat_completions_create. cbv zeta.
  destruct (w_chat W _ _) as [response|e]; simpl.
  - unfold bind, first_message, ret, raise.
    destruct (choices response) as [|message rest]; reflexivity.
  - destruct (is_Exception e); reflexivity.
Qed.

End ReportRequest.

(** X14.  The synthesizer makes one price lookup over one day and then one
    backend call, whatever the lookup does: its rows give the price
    [$<last close>], and no row or an exception of any class, also one
    that is not an error, gives [N/A].  The request carries no tool
    schema, at most 4000 tokens and the temperature 0.3. *)
Theorem report_needs_one_lookup_one_call
  (W : World) (symbol : string) (analysis_data : Bundle) (h : history) :
  let lookup := w_history W h symbol "1d" in
  let req :=
    report_request W
      (final_analysis_prompt symbol (price_info_of lookup) (total_strategies analysis_data)
         (map (individual_analysis W) (analyses analysis_data))) in
  snd (generate_final_report_with_ai W symbol analysis_data h)
  = [EvHistory symbol "1d" lookup;
     EvChat req (w_chat W (h ++ [EvHistory symbol "1d" lookup])%list req)]
  /\ req_tools req = None
  /\ req_max_tokens req = Some 4000
  /\ req_temperature req = Some (mk_float 3 (-1))
  /\ (forall e, lookup = Raise e -> price_info_of lookup = "N/A").
Proof.
  cbv zeta. split; [apply generate_final_report_trace|].
  repeat split. intros e ->. reflexivity.
Qed.

Lemma report_needs_one_lookup_one_call_witness :
  price_info_of (w_history Scenarios.interrupted_lookup_world [] "AAPL" "1d") = "N/A"
  /\ price_info_of (w_history Examples.base_world [] "AAPL" "1d") = "$189.98".
Proof.
  split; [|reflexivity].
  exact (proj2 (proj2 (proj2 (proj2
           (report_needs_one_lookup_one_call Scenarios.interrupted_lookup_world "AAPL"
              Examples.sample_bundle []))))
           SystemExit eq_refl).
Defined.

(** X15.  Every entry of the bundle reaches the backend: the user message of
    the report request contains, for each key and text of the mapping,
    the heading [### <name>], an empty line and the text as it was
    stored, the name being the display name of the strategy or, for
    another key, the key in title case. *)
Theorem report_request_embeds_results
  (W : World) (symbol : string) (analysis_data : Bundle) (h : history)
  (key text : string) (req : ChatRequest) (reply : outcome ChatResponse) :
  In (key, text) (analyses analysis_data) ->
  In (EvChat req reply) (snd (generate_final_report_with_ai W symbol analysis_data h)) ->
  exists system before after,
    req_messages req
    = [("system", system); ("user", before ++ analysis_section W key text ++ after)].
Proof.
  intros Hentry Hin.
  rewrite generate_final_report_trace in Hin.
  destruct Hin as [Hin|[Hin|[]]]; [discriminate Hin|].
  injection Hin as <- _.
  assert (Hsection : In (analysis_section W key text)
                       (map (individual_analysis W) (analyses analysis_data))).
  { change (analysis_section W key text) with (individual_analysis W (key, text)).
    apply in_map. exact Hentry. }
  destruct (join_in nl _ _ Hsection) as (b1 & a1 & Hinner).
  assert (Houter : exists before after,
             final_analysis_prompt symbol (price_info_of (w_history W h symbol "1d"))
               (total_strategies analysis_data)
               (map (individual_analysis W) (analyses analysis_data))
             = before ++ join nl (map (individual_analysis W) (analyses analysis_data))
               ++ after).
  { unfold final_analysis_prompt. apply join_in.
    do 17 right. left. reflexivity. }
  destruct Houter as (b2 & a2 & Houter).
  eexists. exists (b2 ++ b1), (a1 ++ a2).
  unfold report_request. cbn [req_messages]. rewrite Houter, Hinner.
  generalize (analysis_section W key text). intros section.
  rewrite !string_app_assoc. reflexivity.
Qed.

Lemma report_request_embeds_results_witness :
  exists system before after,
    req_messages
      (report_request Examples.base_world
         (final_analysis_prompt "AAPL" "$189.98" 2
            (map (individual_analysis Examples.base_world)
               (analyses Examples.sample_bundle))))
    = [("system", system);
       ("user",
        before ++ analysis_section Examples.base_world "dual_ma" "Total return 8.1%"
        ++ after)].
Proof.
  refine (report_request_embeds_results Examples.base_world "AAPL" Examples.sample_bundle []
            "dual_ma" "Total return 8.1%" _
            (w_chat Examples.base_world
               [EvHistory "AAPL" "1d" (w_history Examples.base_world [] "AAPL" "1d")]
               (report_request Examples.base_world
                  (final_analysis_prompt "AAPL" "$189.98" 2
                     (map (individual_analysis Examples.base_world)
                        (analyses Examples.sample_bundle)))))
            _ _).
  - right. left. reflexivity.
  - right. left. reflexivity.
Defined.

(** ** The report store, continued *)

Section Paths.

Lemma str_app_inv_head (a x y : string) : a ++ x = a ++ y -> x = y.
Proof.
  induction a as [|c a IH]; simpl; intros H; [exact H|].
  injection H as H. apply IH. exact H.
Qed.

Lemma str_length_app (s t : string) :
  String.length (s ++ t) = String.length s + String.length t.
Proof. induction s as [|c s IH]; simpl; [reflexivity | rewrite IH; reflexivity]. Qed.

(** Two texts with endings of the same length are equal part by part. *)
Lemma str_app_inj_length (s s' u u' : string) :
  String.length u = String.length u' ->
  s ++ u = s' ++ u' ->
  s = s' /\ u = u'.
Proof.
  revert s'. induction s as [|c s IH]; intros s' Hlen H.
  - destruct s' as [|c' s']; [split; [reflexivity | exact H]|].
    simpl in H. apply (f_equal String.length) in H.
    simpl in H. rewrite str_length_app in H. lia.
  - destruct s' as [|c' s'].
    + simpl in H. apply (f_equal String.length) in H.
      simpl in H. rewrite str_length_app in H. lia.
    + simpl in H. injection H as -> H.
      destruct (IH s' Hlen H) as [-> ->]. split; reflexivity.
Qed.

Lemma report_path_not_empty (symbol timestamp : string) :
  report_path symbol timestamp <> EmptyString.
Proof. unfold report_path, analysis_dir. simpl. discriminate. Qed.

End Paths.





(** ** Connecting and disconnecting *)

Module ConnectionFacts.

Import Connection.

(** The steps of [connect_to_mcp_server], one reply after the other. *)
Ltac connect_steps T h :=
  unfold connect_to_mcp_server, ctry_except_Exception, cbind, path_exists,
    enter_stdio_client, enter_client_session, set_session, session_initialize, cret;
  cbv zeta;
  destruct (t_exists T h (server_path T)) as [[|]|?e] eqn:?Eexists; simpl;
  [ destruct (t_stdio_client T _ _ _) as [[?rd ?wr]|?e] eqn:?Estdio; simpl;
    [ destruct (t_client_session T _ _ _) as [?s|?e] eqn:?Esession; simpl;
      [ destruct (t_initialize T _ _) as [[]|?e] eqn:?Einit; simpl | ] | ]
  | | ].

(** Whatever happens, the contexts [connect_to_mcp_server] has entered
    are on the exit stack, above those that were there, the last entered
    on top. *)
Lemma connect_keeps_entered_contexts (T : Transport) (st : Analyzer) (h : chistory) :
  exit_stack (snd (fst (connect_to_mcp_server T st h)))
  = (entered_contexts (snd (connect_to_mcp_server T st h)) ++ exit_stack st)%list.
Proof.
  connect_steps T h; try (destruct (is_Exception _)); reflexivity.
Qed.

Lemma disconnect_run (T : Transport) (st : Analyzer) (h : chistory) :
  disconnect_from_mcp_server T st h
  = let reply := t_close T h (exit_stack st) in
    (match reply with
     | Ok _ => Ok tt
     | Raise e => if is_Exception e then Ok tt else Raise e
     end,
     new_analyzer,
     [CvClose (exit_stack st) reply]).
Proof.
  unfold disconnect_from_mcp_server, ctry_finally, ctry_except_Exception,
    exit_stack_aclose, set_session, cret, new_analyzer. cbv zeta.
  destruct (t_close T h (exit_stack st)) as [[]|e]; simpl; [reflexivity|].
  destruct (is_Exception e); reflexivity.
Qed.

End ConnectionFacts.

(** X18.  When the server file is missing, [connect_to_mcp_server] returns
    [False] after the one test of the path: no process is started, no
    context is entered and the analyzer is left as it was. *)
Theorem missing_server_starts_nothing
  (T : Connection.Transport) (st : Connection.Analyzer) (h : Connection.chistory) :
  Connection.t_exists T h (Connection.server_path T) = Ok false ->
  Connection.connect_to_mcp_server T st h
  = (Ok false, st, [Connection.CvExists (Connection.server_path T) (Ok false)]).
Proof.
  intros Hmissing.
  unfold Connection.connect_to_mcp_server, Connection.ctry_except_Exception,
    Connection.cbind, Connection.path_exists, Connection.cret.
  cbv zeta. rewrite Hmissing. reflexivity.
Qed.

Lemma missing_server_starts_nothing_witness :
  Connection.connect_to_mcp_server Connection.missing_server_transport
    Connection.new_analyzer []
  = (Ok false, Connection.new_analyzer,
     [Connection.CvExists "/opt/app/server/main.py" (Ok false)]).
Proof.
  exact (missing_server_starts_nothing Connection.missing_server_transport
           Connection.new_analyzer [] eq_refl).
Defined.

(** X19.  Over a transport that raises nothing but errors,
    [connect_to_mcp_server] always returns a boolean.  It returns [True]
    only after the four steps succeeded in their order (path test,
    transport, session, handshake), and then the session attribute is the
    session entered and the two contexts are on the exit stack. *)
Theorem connect_returns_a_boolean
  (T : Connection.Transport) (st : Connection.Analyzer) (h : Connection.chistory) :
  Connection.transport_raises_errors_only T ->
  (exists connected, fst (fst (Connection.connect_to_mcp_server T st h)) = Ok connected)
  /\ (fst (fst (Connection.connect_to_mcp_server T st h)) = Ok true ->
      exists rd wr s,
        snd (Connection.connect_to_mcp_server T st h)
        = [Connection.CvExists (Connection.server_path T) (Ok true);
           Connection.CvStdioClient "python" [Connection.server_path T] (Ok (rd, wr));
           Connection.CvClientSession rd wr (Ok s);
           Connection.CvInitialize s (Ok tt)]
        /\ snd (fst (Connection.connect_to_mcp_server T st h))
           = Connection.mk_analyzer (Some s)
               (Connection.SessionContext s :: Connection.StdioContext rd wr
                  :: Connection.exit_stack st)).
Proof.
  intros (Hexists & Hstdio & Hsession & Hinit).
  pose proof (Hexists h (Connection.server_path T)) as H1.
  ConnectionFacts.connect_steps T h.
  - split; [exists true; reflexivity|]. intros _. exists rd, wr, s. split; reflexivity.
  - match goal with H : Connection.t_initialize T ?h' ?s' = Raise _ |- _ =>
      pose proof (Hinit h' s') as H4; rewrite H in H4; simpl in H4; rewrite H4 end.
    simpl. split; [exists false; reflexivity | discriminate].
  - match goal with H : Connection.t_client_session T ?h' ?r' ?w' = Raise _ |- _ =>
      pose proof (Hsession h' r' w') as H3; rewrite H in H3; simpl in H3; rewrite H3 end.
    simpl. split; [exists false; reflexivity | discriminate].
  - match goal with H : Connection.t_stdio_client T ?h' ?c' ?a' = Raise _ |- _ =>
      pose proof (Hstdio h' c' a') as H2; rewrite H in H2; simpl in H2; rewrite H2 end.
    simpl. split; [exists false; reflexivity | discriminate].
  - split; [exists false; reflexivity | discriminate].
  - simpl in H1. rewrite H1. simpl.
    split; [exists false; reflexivity | discriminate].
Qed.

Lemma working_transport_raises_errors_only :
  Connection.transport_raises_errors_only Connection.working_transport.
Proof. split; [|split; [|split]]; intros; exact I. Qed.

Lemma connect_returns_a_boolean_witness :
  exists rd wr s,
    snd (Connection.connect_to_mcp_server Connection.working_transport
           Connection.new_analyzer [])
    = [Connection.CvExists "/opt/app/server/main.py" (Ok true);
       Connection.CvStdioClient "python" ["/opt/app/server/main.py"] (Ok (rd, wr));
       Connection.CvClientSession rd wr (Ok s);
       Connection.CvInitialize s (Ok tt)]
    /\ snd (fst (Connection.connect_to_mcp_server Connection.working_transport
                   Connection.new_analyzer []))
       = Connection.mk_analyzer (Some s)
           [Connection.SessionContext s; Connection.StdioContext rd wr].
Proof.
  exact (proj2 (connect_returns_a_boolean Connection.working_transport
                  Connection.new_analyzer [] working_transport_raises_errors_only)
           eq_refl).
Defined.

(** X20.  A handshake that fails with an error makes [connect_to_mcp_server]
    return [False], and yet the session attribute stays set to the
    session that was entered and both contexts stay on the exit stack:
    they are released by [disconnect_from_mcp_server] only. *)
Theorem failed_handshake_leaves_session_set
  (T : Connection.Transport) (st : Connection.Analyzer) (h : Connection.chistory)
  (rd wr s : nat) (e : exn) :
  let p := Connection.server_path T in
  let h1 := (h ++ [Connection.CvExists p (Ok true)])%list in
  let h2 := (h1 ++ [Connection.CvStdioClient "python" [p] (Ok (rd, wr))])%list in
  let h3 := (h2 ++ [Connection.CvClientSession rd wr (Ok s)])%list in
  Connection.t_exists T h p = Ok true ->
  Connection.t_stdio_client T h1 "python" [p] = Ok (rd, wr) ->
  Connection.t_client_session T h2 rd wr = Ok s ->
  Connection.t_initialize T h3 s = Raise e ->
  is_Exception e = true ->
  fst (Connection.connect_to_mcp_server T st h)
  = (Ok false,
     Connection.mk_analyzer (Some s)
       (Connection.SessionContext s :: Connection.StdioContext rd wr
          :: Connection.exit_stack st)).
Proof.
  intros p h1 h2 h3 Hexists Hstdio Hsession Hinit He. subst p h1 h2 h3.
  unfold Connection.connect_to_mcp_server, Connection.ctry_except_Exception,
    Connection.cbind, Connection.path_exists, Connection.enter_stdio_client,
    Connection.enter_client_session, Connection.set_session,
    Connection.session_initialize, Connection.cret.
  cbv zeta. rewrite Hexists. simpl. rewrite Hstdio. simpl.
  rewrite Hsession. simpl. rewrite app_nil_r, Hinit. simpl.
  rewrite He. reflexivity.
Qed.

Lemma failed_handshake_leaves_session_set_witness :
  fst (Connection.connect_to_mcp_server Connection.failing_handshake_transport
         Connection.new_analyzer [])
  = (Ok false,
     Connection.mk_analyzer (Some 7)
       [Connection.SessionContext 7; Connection.StdioContext 3 4]).
Proof.
  exact (failed_handshake_leaves_session_set Connection.failing_handshake_transport
           Connection.new_analyzer [] 3 4 7 ConnectionError
           eq_refl eq_refl eq_refl eq_refl eq_refl).
Defined.

(** X21.  [disconnect_from_mcp_server] hands the whole exit stack to the one
    close, swallows an error of the close, and in every case, also when
    the close raises what is not an error, leaves the analyzer with no
    session and an empty stack; a second call closes nothing. *)
Theorem disconnect_always_clears_session
  (T : Connection.Transport) (st : Connection.Analyzer) (h : Connection.chistory) :
  let first := Connection.disconnect_from_mcp_server T st h in
  let second :=
    Connection.disconnect_from_mcp_server T (snd (fst first)) (h ++ snd first)%list in
  snd (fst first) = Connection.new_analyzer
  /\ snd first
     = [Connection.CvClose (Connection.exit_stack st)
          (Connection.t_close T h (Connection.exit_stack st))]
  /\ (error_or_value (Connection.t_close T h (Connection.exit_stack st)) ->
      fst (fst first) = Ok tt)
  /\ snd (fst second) = Connection.new_analyzer
  /\ exists reply, snd second = [Connection.CvClose [] reply].
Proof.
  cbv zeta. rewrite !ConnectionFacts.disconnect_run. cbv zeta. simpl.
  split; [reflexivity|]. split; [reflexivity|]. split.
  - destruct (Connection.t_close T h (Connection.exit_stack st)) as [[]|e]; simpl;
      [reflexivity|]. intros ->. reflexivity.
  - split; [reflexivity|]. eexists. reflexivity.
Qed.

Lemma disconnect_always_clears_session_witness :
  fst (fst (Connection.disconnect_from_mcp_server Connection.failing_handshake_transport
              (Connection.mk_analyzer (Some 7)
                 [Connection.SessionContext 7; Connection.StdioContext 3 4]) []))
  = Ok tt.
Proof.
  exact (proj1 (proj2 (proj2 (disconnect_always_clears_session
                                Connection.failing_handshake_transport
                                (Connection.mk_analyzer (Some 7)
                                   [Connection.SessionContext 7; Connection.StdioContext 3 4])
                                []))) eq_refl).
Defined.

(** X22.  Connecting and then disconnecting releases everything: whatever the
    transport does, and whether the connection succeeded or not, the one
    close receives the contexts the connection entered, the last entered
    first, followed by those that were on the stack, and the analyzer
    ends with no session and an empty stack. *)
Theorem connect_then_disconnect_releases_everything
  (T : Connection.Transport) (st : Connection.Analyzer) (h : Connection.chistory) :
  let connect := Connection.connect_to_mcp_server T st h in
  let disconnect :=
    Connection.disconnect_from_mcp_server T (snd (fst connect)) (h ++ snd connect)%list in
  snd (fst disconnect) = Connection.new_analyzer
  /\ exists reply,
      snd disconnect
      = [Connection.CvClose
           (Connection.entered_contexts (snd connect) ++ Connection.exit_stack st)%list
           reply].
Proof.
  cbv zeta. rewrite ConnectionFacts.disconnect_run. cbv zeta. simpl.
  split; [reflexivity|].
  rewrite ConnectionFacts.connect_keeps_entered_contexts.
  eexists. reflexivity.
Qed.
